(** * Card management routes of the Dolphin flashcard backend

    A shallow embedding of [backend/routes/api/card_management.py]:
    the id hash [hash_to_numeric], the folder normalisation done by the
    create and move routes, and the four routes as programs over the key-value
    database, followed by the properties of the routes.

    Python [str] values are represented by Rocq strings holding their UTF-8
    encoding: concatenation, [endswith("/")] and comparison with [""] act the
    same on both, and [encode()] becomes the identity on the bytes. *)

From Stdlib Require Import NArith ZArith Ascii String.
From stdpp Require Import base option list strings gmap.

(** ** SHA-256

    [hashlib.sha256] as specified by FIPS 180-4, on 32-bit words held in [N]
    with the wrap-around written out. *)

Module SHA256.
Local Open Scope N_scope.

Definition add32 (x y : N) : N := (x + y) mod 4294967296.
Definition rotr (n x : N) : N :=
  N.lor (N.shiftr x n) (N.shiftl x (32 - n) mod 4294967296).
Definition shr (n x : N) : N := N.shiftr x n.
Definition not32 (x : N) : N := N.lxor x 4294967295.

Definition Ch (x y z : N) : N := N.lxor (N.land x y) (N.land (not32 x) z).
Definition Maj (x y z : N) : N :=
  N.lxor (N.lxor (N.land x y) (N.land x z)) (N.land y z).
Definition Sigma0 (x : N) : N := N.lxor (N.lxor (rotr 2 x) (rotr 13 x)) (rotr 22 x).
Definition Sigma1 (x : N) : N := N.lxor (N.lxor (rotr 6 x) (rotr 11 x)) (rotr 25 x).
Definition sigma0 (x : N) : N := N.lxor (N.lxor (rotr 7 x) (rotr 18 x)) (shr 3 x).
Definition sigma1 (x : N) : N := N.lxor (N.lxor (rotr 17 x) (rotr 19 x)) (shr 10 x).

Definition K : list N :=
  [ 1116352408; 1899447441; 3049323471; 3921009573; 961987163; 1508970993;
    2453635748; 2870763221; 3624381080; 310598401; 607225278; 1426881987;
    1925078388; 2162078206; 2614888103; 3248222580; 3835390401; 4022224774;
    264347078; 604807628; 770255983; 1249150122; 1555081692; 1996064986;
    2554220882; 2821834349; 2952996808; 3210313671; 3336571891; 3584528711;
    113926993; 338241895; 666307205; 773529912; 1294757372; 1396182291;
    1695183700; 1986661051; 2177026350; 2456956037; 2730485921; 2820302411;
    3259730800; 3345764771; 3516065817; 3600352804; 4094571909; 275423344;
    430227734; 506948616; 659060556; 883997877; 958139571; 1322822218;
    1537002063; 1747873779; 1955562222; 2024104815; 2227730452; 2361852424;
    2428436474; 2756734187; 3204031479; 3329325298 ].

(** The eight working variables, and the chaining value. *)
Record state : Type := State {
  sa : N; sb : N; sc : N; sd : N; se : N; sf : N; sg : N; sh : N }.

Definition H0 : state :=
  State 1779033703 3144134277 1013904242 2773480762
        1359893119 2600822924 528734635 1541459225.

(** Padding: a 1 bit, zeros up to 56 mod 64 bytes, the bit length on 8 bytes. *)
Definition be_bytes (k : nat) (x : N) : list N :=
  map (fun i => N.shiftr x (8 * N.of_nat i) mod 256) (rev (seq 0 k)).

Definition pad (msg : list N) : list N :=
  let len := N.of_nat (length msg) in
  msg ++ [128] ++ replicate (N.to_nat ((119 - len mod 64) mod 64)) 0
      ++ be_bytes 8 (8 * len).

Fixpoint chunks (size count : nat) (l : list N) : list (list N) :=
  match count with
  | O => []
  | S count' => take size l :: chunks size count' (drop size l)
  end.

Definition be_word (bs : list N) : N :=
  fold_left (fun acc b => acc * 256 + b) bs 0.

Definition block_words (block : list N) : list N :=
  map be_word (chunks 4 16 block).

(** The message schedule, most recent word first. *)
Fixpoint schedule (count : nat) (w : list N) : list N :=
  match count with
  | O => w
  | S count' =>
      let wt := add32 (add32 (sigma1 (nth 1 w 0)) (nth 6 w 0))
                      (add32 (sigma0 (nth 14 w 0)) (nth 15 w 0)) in
      schedule count' (wt :: w)
  end.

Definition round (s : state) (kw : N * N) : state :=
  let t1 := add32 (add32 (add32 (sh s) (Sigma1 (se s)))
                         (add32 (Ch (se s) (sf s) (sg s)) (fst kw))) (snd kw) in
  let t2 := add32 (Sigma0 (sa s)) (Maj (sa s) (sb s) (sc s)) in
  State (add32 t1 t2) (sa s) (sb s) (sc s) (add32 (sd s) t1) (se s) (sf s) (sg s).

Definition compress (h : state) (block : list N) : state :=
  let w := rev (schedule 48 (rev (block_words block))) in
  let s := fold_left round (combine K w) h in
  State (add32 (sa h) (sa s)) (add32 (sb h) (sb s)) (add32 (sc h) (sc s))
        (add32 (sd h) (sd s)) (add32 (se h) (se s)) (add32 (sf h) (sf s))
        (add32 (sg h) (sg s)) (add32 (sh h) (sh s)).

Definition digest_state (msg : list N) : state :=
  let padded := pad msg in
  fold_left compress (chunks 64 (length padded / 64)%nat padded) H0.

(** The 32 bytes of the digest. *)
Definition digest (msg : list N) : list N :=
  let s := digest_state msg in
  be_bytes 4 (sa s) ++ be_bytes 4 (sb s) ++ be_bytes 4 (sc s) ++ be_bytes 4 (sd s)
    ++ be_bytes 4 (se s) ++ be_bytes 4 (sf s) ++ be_bytes 4 (sg s) ++ be_bytes 4 (sh s).
End SHA256.

(** ** Python string and integer primitives used by the module *)

(** [s.encode()]: the bytes of the string. *)
Definition encode (s : string) : list N :=
  map N_of_ascii (list_ascii_of_string s).

Definition hex_digits : list ascii :=
  ["0"; "1"; "2"; "3"; "4"; "5"; "6"; "7"; "8"; "9"; "a"; "b"; "c"; "d"; "e"; "f"]%char.

Definition hex_digit (n : N) : ascii := nth (N.to_nat n) hex_digits "0"%char.

(** [bytes.hex()], the rendering used by [hexdigest()]. *)
Fixpoint hex_of_bytes (bs : list N) : string :=
  match bs with
  | [] => EmptyString
  | b :: bs' => String (hex_digit (b / 16)) (String (hex_digit (b mod 16)) (hex_of_bytes bs'))
  end.

Definition hexdigest (msg : list N) : string := hex_of_bytes (SHA256.digest msg).

(** The value of one base-16 digit, as [int(_, 16)] reads it. *)
Definition hex_value (c : ascii) : option N :=
  let n := N_of_ascii c in
  if (48 <=? n)%N && (n <=? 57)%N then Some (n - 48)%N
  else if (97 <=? n)%N && (n <=? 102)%N then Some (n - 87)%N
  else if (65 <=? n)%N && (n <=? 70)%N then Some (n - 55)%N
  else None.

(** [int(s, 16)] on a string of hexadecimal digits; [None] stands for the
    [ValueError] raised on any other character. *)
Fixpoint int_base16_from (acc : N) (s : string) : option N :=
  match s with
  | EmptyString => Some acc
  | String c s' =>
      match hex_value c with
      | Some d => int_base16_from (acc * 16 + d)%N s'
      | None => None
      end
  end.

Definition int_base16 (s : string) : option N :=
  match s with
  | EmptyString => None
  | _ => int_base16_from 0%N s
  end.

(** [str(n)] for a non-negative integer: decimal digits, most significant
    first, no leading zero. [fuel] bounds the number of digits. *)
Definition dec_digit (n : N) : ascii := ascii_of_N (48 + n mod 10).

Fixpoint str_from (fuel : nat) (n : N) (acc : string) : string :=
  match fuel with
  | O => acc
  | S fuel' =>
      let acc' := String (dec_digit n) acc in
      if (n / 10 =? 0)%N then acc' else str_from fuel' (n / 10)%N acc'
  end.

Definition str (n : N) : string := str_from (S (N.to_nat (N.log2 n))) n EmptyString.

(** ** [hash_to_numeric] *)

Definition hash_to_numeric (input_string : string) : string :=
  let hashed_string := hexdigest (encode input_string) in
  match int_base16 hashed_string with
  | Some hashed_numeric => str hashed_numeric
  | None => EmptyString  (* ValueError: never taken, see [int_base16_hexdigest] *)
  end.

(** [s.endswith(suffix)] *)
Fixpoint endswith (s suffix : string) : bool :=
  String.eqb s suffix ||
  match s with
  | EmptyString => false
  | String _ s' => endswith s' suffix
  end.

(** ** Documents

    The values the database stores and the routes exchange: JSON-shaped
    strings, numbers, booleans, sequences and mappings. A Python [dict] with
    string keys is a [gmap string json]. Python's [None] (an absent document,
    JSON [null]) is the [None] of [option json]. *)

#[warnings="-register-all"]
Inductive json : Type :=
| JStr (s : string)
| JNum (n : Z)
| JBool (b : bool)
| JSeq (items : list json)
| JMap (fields : gmap string json).

(** ** The database

    The class behind [database.database.database] is not part of this module;
    the routes only call [db.get(path)] and [db.save(path, data)]. *)

(** Modelled from the spec: an address cut at its separators, as
    [path.split("/")] cuts it. *)
Fixpoint split_slash (s : string) : list string :=
  match s with
  | EmptyString => [EmptyString]
  | String c s' =>
      if Ascii.eqb c "/" then EmptyString :: split_slash s'
      else match split_slash s' with
           | [] => [String c EmptyString]
           | seg :: segs => String c seg :: segs
           end
  end.

(** Modelled from the spec: the segments of a [/]-delimited address. The
    database class is missing from the sources; the spec describes addresses
    as [/]-delimited strings made of segments, each terminated by a separator,
    so empty segments name nothing and are dropped. *)
Definition segments (path : string) : list string :=
  filter (λ seg, seg ≠ EmptyString) (split_slash path).

(** Modelled from the spec: [get(address) -> document | absent] of the
    persistence layer, missing from the sources. The spec makes the store a
    tree-shaped namespace in which folders exist only as path prefixes and the
    document read at a folder is the mapping of what lies directly below it:
    reading an address walks the mappings of the root document along the
    segments, and anything that is not reached is absent. *)
Fixpoint navigate (path : list string) (doc : json) : option json :=
  match path with
  | [] => Some doc
  | key :: path' =>
      match doc with
      | JMap fields => fields !! key ≫= navigate path'
      | _ => None
      end
  end.

(** Modelled from the spec: what lies directly below a node of the tree;
    nothing lies below a document that is not a mapping. *)
Definition children (doc : json) : gmap string json :=
  match doc with
  | JMap fields => fields
  | _ => ∅
  end.

(** Modelled from the spec: [put(address, document)] of the persistence
    layer, missing from the sources: the document becomes the subtree at the
    address, replacing what was there; the mappings on the way are created
    when they do not exist, and everything beside the address is kept. *)
Fixpoint save_at (path : list string) (data : json) (doc : json) : json :=
  match path with
  | [] => data
  | key :: path' =>
      let fields := children doc in
      JMap (<[key := save_at path' data (default (JMap ∅) (fields !! key))]> fields)
  end.

(** Modelled from the spec: [db.get(path)] on the root document [db]. *)
Definition db_get (db : json) (path : string) : option json :=
  navigate (segments path) db.

(** Modelled from the spec: [db.save(path, data)] on the root document [db]. *)
Definition db_save (db : json) (path : string) (data : json) : json :=
  save_at (segments path) data db.

(** An empty database. *)
Definition empty_db : json := JMap ∅.

(** ** Routes as database programs

    A route is a sequence of [db.get] and [db.save] calls ending in a
    response. The calls are kept as a tree so that a run can be observed call
    by call: the writes it made, and the database it leaves when it stops
    between two of them. *)

Inductive db_prog (A : Type) : Type :=
| Return (result : A)
| DbGet (path : string) (k : option json → db_prog A)
| DbSave (path : string) (data : json) (k : db_prog A).
Arguments Return {A} result.
Arguments DbGet {A} path k.
Arguments DbSave {A} path data k.

(** A complete run: the database it leaves and the response. *)
Fixpoint exec {A} (p : db_prog A) (db : json) : json * A :=
  match p with
  | Return r => (db, r)
  | DbGet path k => exec (k (db_get db path)) db
  | DbSave path data k => exec k (db_save db path data)
  end.

(** The writes of a complete run, in order. *)
Fixpoint writes {A} (p : db_prog A) (db : json) : list (string * json) :=
  match p with
  | Return _ => []
  | DbGet path k => writes (k (db_get db path)) db
  | DbSave path data k => (path, data) :: writes k (db_save db path data)
  end.

(** A run that is interrupted once [budget] writes are done: the database as
    it stands then. *)
Fixpoint exec_interrupted {A} (budget : nat) (p : db_prog A) (db : json) : json :=
  match p with
  | Return _ => db
  | DbGet path k => exec_interrupted budget (k (db_get db path)) db
  | DbSave path data k =>
      match budget with
      | O => db
      | S budget' => exec_interrupted budget' k (db_save db path data)
      end
  end.

(** What the web framework sends back: a JSON body ([None] is [null]) with
    a status code, or the failure of the request on an exception that the
    route does not catch. *)
Inductive http_result : Type :=
| Reply (body : option json) (status : Z)
| Unhandled (exception : string).

(** ** The routes

    Each route is embedded from the point where [check_request_json] has
    accepted the request: its fields are strings, [cards] is a document. *)

(** The folder as [create_flashcard] uses it: lines 88-90. *)
Definition create_folder (folder : string) : string :=
  if endswith folder "/" then folder else folder +:+ "/".

(** The locations as [move_flashcard_set] uses them: lines 218-221. *)
Definition move_folder (location : string) : string :=
  if negb (endswith location "/") && negb (String.eqb location "")
  then location +:+ "/" else location.

Definition flashcard_document (flashcard_id flashcard_name flashcard_description : string)
    (cards : json) : json :=
  JMap (<["flashcardID" := JStr flashcard_id]>
       (<["flashcardName" := JStr flashcard_name]>
       (<["flashcardDescription" := JStr flashcard_description]>
       (<["cards" := cards]> ∅)))).

(** [jsonify({"success": True}, 200)]: both arguments go into the body. *)
Definition create_success : http_result :=
  Reply (Some (JSeq [JMap {["success" := JBool true]}; JNum 200])) 200.

Definition create_flashcard (user_id flashcard_name flashcard_description : string)
    (cards : json) (folder : string) : db_prog http_result :=
  let folder := create_folder folder in
  let flashcard_id := hash_to_numeric (user_id +:+ folder +:+ flashcard_name) in
  DbGet ("/users/" +:+ user_id +:+ "/flashcards/" +:+ folder +:+ flashcard_id)
    (λ existing,
       match existing with
       | None =>
           DbSave ("/users/" +:+ user_id +:+ "/flashcards/" +:+ folder +:+ flashcard_id)
             (flashcard_document flashcard_id flashcard_name flashcard_description cards)
             (Return create_success)
       | Some _ => Return create_success
       end).

Definition get_flashcard (user_id flashcard_name : string) : db_prog http_result :=
  let flashcard_id := hash_to_numeric (user_id +:+ flashcard_name) in
  DbGet ("/users/" +:+ user_id +:+ "/flashcards/" +:+ flashcard_id)
    (λ found, Return (Reply found 200)).

Definition error_body (message : string) : option json :=
  Some (JMap {["error" := JStr message]}).

Definition no_flashcards : http_result :=
  Reply (Some (JSeq [JStr "User has no flashcards"])) 200.

Section TodayCards.
(** [FlashcardCollection(flashcards).today_card_list], from
    [classes.card_collection], which this module only calls. *)
Variable today_card_list : json → json.

Definition get_today_cards (user_id : string) : db_prog http_result :=
  DbGet ("/users/" +:+ user_id +:+ "/flashcards")
    (λ flashcards,
       match flashcards with
       | None => Return no_flashcards
       | Some flashcards => Return (Reply (Some (today_card_list flashcards)) 200)
       end).
End TodayCards.

Definition move_not_found (user_id current_location flashcard_id : string) : http_result :=
  Reply (error_body ("The flashcard set at " +:+ "/users/" +:+ user_id +:+ "/flashcards/"
                     +:+ current_location +:+ flashcard_id +:+ " does not exist")) 400.

Definition move_success (user_id current_location flashcard_id move_location : string)
    : http_result :=
  Reply (Some (JMap {["success" :=
           JStr ("The flashcard set at " +:+ "/users/" +:+ user_id +:+ "/flashcards/"
                 +:+ current_location +:+ flashcard_id +:+ " has been moved to "
                 +:+ move_location)]})) 200.

Definition move_flashcard_set (user_id flashcard_id move_location current_location : string)
    : db_prog http_result :=
  let current_location := move_folder current_location in
  let move_location := move_folder move_location in
  DbGet ("/users/" +:+ user_id +:+ "/flashcards/" +:+ current_location)
    (λ flashcard_data,
       match flashcard_data with
       | None => Return (move_not_found user_id current_location flashcard_id)
       | Some (JMap fields) =>
           match fields !! flashcard_id with
           | None => Return (move_not_found user_id current_location flashcard_id)
           | Some flashcard =>
               (* Remove the flashcard where it currently is *)
               DbSave ("/users/" +:+ user_id +:+ "/flashcards/" +:+ current_location)
                 (JMap (delete flashcard_id fields))
                 (* Save the flashcard in the new location *)
                 (DbSave ("/users/" +:+ user_id +:+ "/flashcards/" +:+ move_location
                          +:+ flashcard_id)
                    flashcard
                    (Return (move_success user_id current_location flashcard_id
                               move_location)))
           end
       | Some _ =>
           (* [flashcard_data.keys()] on a str, a number, a bool or a list *)
           Return (Unhandled "AttributeError")
       end).

(** ** Vocabulary of the properties *)

(** A decimal digit. *)
Definition is_digit (c : ascii) : bool :=
  (48 <=? N_of_ascii c)%N && (N_of_ascii c <=? 57)%N.

(** Every character of [s] satisfies [P]. *)
Fixpoint all_chars (P : ascii → bool) (s : string) : bool :=
  match s with
  | EmptyString => true
  | String c s' => P c && all_chars P s'
  end.

(** Any character but the separator. *)
Definition not_slash (c : ascii) : bool := negb (Ascii.eqb c "/").

(** A string that is one segment of an address: not empty, no separator. *)
Definition is_key (s : string) : bool :=
  negb (String.eqb s "") && all_chars not_slash s.

(** A folder as the routes append an id to it: empty, or closed by a
    separator. *)
Definition closed_folder (folder : string) : Prop :=
  folder = "" ∨ endswith folder "/" = true.

(** The path of [/users/{user_id}/flashcards/...] in the tree. *)
Definition flashcards_path (user_id : string) : list string :=
  "users" :: segments user_id ++ ["flashcards"].

(** What C6 asks of the path [result] built from [folder]: empty for an
    empty or root folder, and otherwise closed by exactly one separator. *)
Definition normalized_as_specified (folder result : string) : Prop :=
  ((folder = "" ∨ folder = "/") → result = "")
  ∧ (result ≠ "" → endswith result "/" = true ∧ endswith result "//" = false).

(** The id that [create_flashcard] gives the set: line 92. *)
Definition create_id (user_id folder flashcard_name : string) : string :=
  hash_to_numeric (user_id +:+ create_folder folder +:+ flashcard_name).

(** The address at which [create_flashcard] looks for the set and stores it:
    lines 95-96. *)
Definition create_address (user_id folder flashcard_name : string) : string :=
  "/users/" +:+ user_id +:+ "/flashcards/" +:+ create_folder folder
    +:+ create_id user_id folder flashcard_name.

(** The cards of the examples: one card, as in the docstring of the route. *)
Definition sample_cards : json :=
  JSeq [JMap (<["front" := JStr "Front 1"]> (<["back" := JStr "Back 1"]>
             (<["reviewStatus" := JStr "0.0"]> (<["lastReview" := JStr "01/01/2024"]> ∅))))].

(** The source folder that [move_flashcard_set] reads and rewrites: lines 224
    and 234. *)
Definition move_source_address (user_id current_location : string) : string :=
  "/users/" +:+ user_id +:+ "/flashcards/" +:+ move_folder current_location.

(** The address of the set below its source folder, as the messages of
    lines 228 and 242 spell it. *)
Definition move_old_address (user_id current_location flashcard_id : string) : string :=
  "/users/" +:+ user_id +:+ "/flashcards/" +:+ move_folder current_location
    +:+ flashcard_id.

(** The address [move_flashcard_set] moves the set to: line 238. *)
Definition move_new_address (user_id move_location flashcard_id : string) : string :=
  "/users/" +:+ user_id +:+ "/flashcards/" +:+ move_folder move_location
    +:+ flashcard_id.

(** The addresses a run reads, in order. *)
Fixpoint reads {A} (p : db_prog A) (db : json) : list string :=
  match p with
  | Return _ => []
  | DbGet path k => path :: reads (k (db_get db path)) db
  | DbSave path data k => reads k (db_save db path data)
  end.

(** An error response of this module: a status other than 200, an ["error"]
    field in the body, or an exception. *)
Definition is_error (r : http_result) : bool :=
  match r with
  | Reply body status =>
      negb (status =? 200)%Z
      || match body with
         | Some (JMap fields) => bool_decide (is_Some (fields !! "error"))
         | _ => false
         end
  | Unhandled _ => true
  end.

(** A database with a set [1] in folder [a] and another document at the
    same id in folder [b]. *)
Definition two_folders_db : json :=
  db_save (db_save empty_db "/users/u/flashcards/a/1" (JStr "moved"))
    "/users/u/flashcards/b/1" (JStr "kept").

(** The database of the first example: one set, named [n], in folder [a]. *)
Definition one_set_db : json :=
  fst (exec (create_flashcard "u" "n" "d" sample_cards "a") empty_db).

(** The id of that set. *)
Definition one_set_id : string := create_id "u" "a" "n".

(** A current location that names the cards of that set: a list, stored
    below the set document. *)
Definition one_set_cards_location : string := "a/" +:+ one_set_id +:+ "/cards".

(** A document contains a set id when it is a mapping with an entry under
    the id; a string, a number, a boolean or a list of cards holds no set. *)
Definition contains_set (document : json) (flashcard_id : string) : bool :=
  match document with
  | JMap fields => bool_decide (is_Some (fields !! flashcard_id))
  | _ => false
  end.

(** What C8 asks of the answer of a move: the not-found error, exactly when
    the source folder document is absent or does not contain the set id. *)
Definition move_not_found_as_specified (db : json)
    (user_id flashcard_id move_location current_location : string) : Prop :=
  let request :=
    move_flashcard_set user_id flashcard_id move_location current_location in
  let source := db_get db (move_source_address user_id current_location) in
  snd (exec request db)
    = move_not_found user_id (move_folder current_location) flashcard_id
  ↔ source = None
    ∨ ∃ document, source = Some document ∧ contains_set document flashcard_id = false.

(** What C3 asks of a move of the set found at its old address. *)
Definition move_relocates (db : json)
    (user_id flashcard_id move_location current_location : string) : Prop :=
  let request :=
    move_flashcard_set user_id flashcard_id move_location current_location in
  ∀ flashcard,
    db_get db (move_old_address user_id current_location flashcard_id) = Some flashcard →
    snd (exec request db)
      = move_success user_id (move_folder current_location) flashcard_id
          (move_folder move_location) →
    db_get (fst (exec request db)) (move_new_address user_id move_location flashcard_id)
      = Some flashcard
    ∧ db_get (fst (exec request db))
        (move_old_address user_id current_location flashcard_id) = None.

(** What C1 asks of the database [middle] that a move leaves when it stops
    between its two writes: the set is at exactly one of the two addresses. *)
Definition at_exactly_one (middle : json) (old new : string) : Prop :=
  (db_get middle old ≠ None ∧ db_get middle new = None)
  ∨ (db_get middle old = None ∧ db_get middle new ≠ None).

(** The address [get_flashcard] reads: line 141. *)
Definition get_address (user_id flashcard_name : string) : string :=
  "/users/" +:+ user_id +:+ "/flashcards/" +:+ hash_to_numeric (user_id +:+ flashcard_name).

(** What C4 concludes: after [create_flashcard], [get_flashcard] with the
    same owner and name returns absent. *)
Definition get_after_create_absent (db : json)
    (user_id flashcard_name flashcard_description : string) (cards : json)
    (folder : string) : Prop :=
  snd (exec (get_flashcard user_id flashcard_name)
         (fst (exec (create_flashcard user_id flashcard_name flashcard_description
                       cards folder) db)))
  = Reply None 200.

(** The number that a sequence of bytes denotes, most significant byte
    first. *)
Definition be_value (bs : list N) : N :=
  fold_left (λ acc b, (acc * 256 + b)%N) bs 0%N.

(** [int(s)] on a string of decimal digits, read from [acc] on. *)
Fixpoint dec_value_from (acc : N) (s : string) : N :=
  match s with
  | EmptyString => acc
  | String c s' => dec_value_from (acc * 10 + (N_of_ascii c - 48))%N s'
  end.

Definition dec_value (s : string) : N := dec_value_from 0%N s.

(** The hash and the database are unfolded only on request. *)
Arguments hash_to_numeric : simpl never.
Arguments db_get : simpl never.
Arguments db_save : simpl never.
Arguments segments : simpl never.

(** * Properties *)

(** Closed goals over concrete requests and databases are settled by
    evaluation. *)
Ltac by_evaluation := solve [vm_compute; repeat split; try discriminate].

(** ** Test vectors for the digest *)

Example hexdigest_empty :
  hexdigest (encode "")
  = "e3b0c44298fc1c149afbf4c8996fb92427ae41e4649b934ca495991b7852b855".
Proof. vm_compute. reflexivity. Qed.

Example hexdigest_abc :
  hexdigest (encode "abc")
  = "ba7816bf8f01cfea414140de5dae2223b00361a396177a9cb410ff61f20015ad".
Proof. vm_compute. reflexivity. Qed.

(** Two blocks: 56 bytes of message push the length into a second block. *)
Example hexdigest_two_blocks :
  hexdigest (encode "aaaaaaaaaaaaaaaaaaaaaaaaaaaaaaaaaaaaaaaaaaaaaaaaaaaaaaaa")
  = "b35439a4ac6f0948b6d6f9e3c6af0f5f590ce20f1bde7090ef7970686ec6738a".
Proof. vm_compute. reflexivity. Qed.

Example hash_to_numeric_un :
  hash_to_numeric "un"
  = "47373815084100155019182100746929836632683199746124275010547994661010007931275".
Proof. vm_compute. reflexivity. Qed.

(** ** The routes on small inputs *)

Example create_folder_examples :
  create_folder "parent-name" = "parent-name/"
  ∧ create_folder "top/second/" = "top/second/"
  ∧ create_folder "" = "/".
Proof. by_evaluation. Qed.

Example move_folder_examples :
  move_folder "parent-name" = "parent-name/"
  ∧ move_folder "top/second/" = "top/second/"
  ∧ move_folder "" = "".
Proof. by_evaluation. Qed.

Example segments_examples :
  segments "/users/my-id/flashcards/parent-name/123"
    = ["users"; "my-id"; "flashcards"; "parent-name"; "123"]
  ∧ segments "/users/my-id/flashcards//123" = ["users"; "my-id"; "flashcards"; "123"]
  ∧ segments "/users/my-id/flashcards/" = ["users"; "my-id"; "flashcards"].
Proof. by_evaluation. Qed.

(** The set created in folder [a] is read back at its address, and the folder
    document above it is the mapping from its id to it. *)
Example create_then_read :
  db_get one_set_db (create_address "u" "a" "n")
    = Some (flashcard_document one_set_id "n" "d" sample_cards)
  ∧ db_get one_set_db "/users/u/flashcards/a/"
    = Some (JMap {[one_set_id := flashcard_document one_set_id "n" "d" sample_cards]})
  ∧ snd (exec (create_flashcard "u" "n" "d" sample_cards "a") empty_db) = create_success.
Proof. by_evaluation. Qed.

(** A current location that names the cards of a set, a list: the membership
    test of the move raises, nothing is written. *)
Example move_from_a_list :
  exec (move_flashcard_set "u" "1" "b" ("a/" +:+ one_set_id +:+ "/cards")) one_set_db
  = (one_set_db, Unhandled "AttributeError").
Proof. by_evaluation. Qed.

(** ** Strings *)

Lemma append_cons (c : ascii) (a b : string) : String c a +:+ b = String c (a +:+ b).
Proof. reflexivity. Qed.

Lemma append_nil_r (s : string) : s +:+ "" = s.
Proof. induction s as [|c s IH]; [reflexivity|]. by rewrite append_cons, IH. Qed.

Lemma append_assoc (a b c : string) : (a +:+ b) +:+ c = a +:+ (b +:+ c).
Proof. induction a as [|x a IH]; [reflexivity|]. by rewrite !append_cons, IH. Qed.

Lemma length_append (a b : string) :
  String.length (a +:+ b) = String.length a + String.length b.
Proof. induction a as [|x a IH]; [reflexivity|]. rewrite append_cons. cbn. by rewrite IH. Qed.

Lemma endswith_spec (s suffix : string) :
  endswith s suffix = true ↔ ∃ prefix, s = prefix +:+ suffix.
Proof.
  induction s as [|c s IH]; cbn [endswith].
  - rewrite orb_false_r, String.eqb_eq. split.
    + intros <-. by exists "".
    + intros [[|c p] Hp]; [done|]. rewrite append_cons in Hp. discriminate.
  - rewrite orb_true_iff, String.eqb_eq, IH. split.
    + intros [<-|[p ->]]; [by exists ""|by exists (String c p)].
    + intros [[|c' p] Hp]; [by left|]. right. exists p.
      rewrite append_cons in Hp. by injection Hp.
Qed.

(** ** The digest is 32 bytes, its number is below 2^256 *)

Lemma length_be_bytes (k : nat) (x : N) : length (SHA256.be_bytes k x) = k.
Proof. unfold SHA256.be_bytes. by rewrite length_map, length_rev, length_seq. Qed.

Lemma length_digest (msg : list N) : length (SHA256.digest msg) = 32.
Proof. unfold SHA256.digest. cbv zeta. by rewrite !length_app, !length_be_bytes. Qed.

Lemma hex_value_hex_digit (n : N) :
  ∃ d, hex_value (hex_digit n) = Some d ∧ (d < 16)%N.
Proof.
  unfold hex_digit. generalize (N.to_nat n). intros k.
  do 16 (destruct k as [|k]; [eexists; split; [vm_compute; reflexivity|reflexivity]|]).
  destruct k; eexists; (split; [vm_compute; reflexivity|reflexivity]).
Qed.

Lemma int_base16_from_hex (bs : list N) (acc : N) :
  ∃ v, int_base16_from acc (hex_of_bytes bs) = Some v
       ∧ (v < (acc + 1) * 256 ^ N.of_nat (length bs))%N.
Proof.
  revert acc. induction bs as [|b bs IH]; intros acc.
  - exists acc. split; [done|]. cbn. lia.
  - cbn [hex_of_bytes int_base16_from].
    destruct (hex_value_hex_digit (b / 16)) as (d1 & -> & Hd1).
    destruct (hex_value_hex_digit (b mod 16)) as (d2 & -> & Hd2).
    destruct (IH ((acc * 16 + d1) * 16 + d2)%N) as (v & Hv & Hlt).
    exists v. split; [done|].
    rewrite length_cons, Nat2N.inj_succ, N.pow_succ_r'. nia.
Qed.

(** [int(hexdigest, 16)] never raises. *)
Lemma int_base16_hexdigest (msg : list N) :
  ∃ v, int_base16 (hexdigest msg) = Some v ∧ (v < 2 ^ 256)%N.
Proof.
  unfold hexdigest.
  destruct (int_base16_from_hex (SHA256.digest msg) 0) as (v & Hv & Hlt).
  rewrite length_digest in Hlt.
  exists v. split.
  - pose proof (length_digest msg) as Hlen.
    destruct (SHA256.digest msg) as [|b bs]; [discriminate|]. exact Hv.
  - eapply N.lt_le_trans; [exact Hlt|]. by vm_compute.
Qed.

(** ** Decimal rendering *)

Lemma is_digit_dec_digit (n : N) : is_digit (dec_digit n) = true.
Proof.
  unfold is_digit, dec_digit.
  pose proof (N.mod_upper_bound n 10 ltac:(done)) as Hlt.
  generalize dependent (n mod 10)%N. intros d Hlt.
  rewrite N_ascii_embedding by lia.
  apply andb_true_iff. split; apply N.leb_le; lia.
Qed.

Lemma str_from_digits (fuel : nat) (n : N) (acc : string) :
  all_chars is_digit acc = true → all_chars is_digit (str_from fuel n acc) = true.
Proof.
  revert n acc. induction fuel as [|fuel IH]; intros n acc Hacc; [done|].
  cbn [str_from]. cbv zeta.
  assert (all_chars is_digit (String (dec_digit n) acc) = true) as Hacc'.
  { cbn. by rewrite is_digit_dec_digit, Hacc. }
  destruct (n / 10 =? 0)%N; [done|]. by apply IH.
Qed.

Lemma str_from_length_lower (fuel : nat) (n : N) (acc : string) :
  String.length acc + 1 ≤ String.length (str_from (S fuel) n acc).
Proof.
  revert n acc. induction fuel as [|fuel IH]; intros n acc.
  - cbn. destruct (n / 10 =? 0)%N; cbn; lia.
  - change (str_from (S (S fuel)) n acc)
      with (if (n / 10 =? 0)%N then String (dec_digit n) acc
            else str_from (S fuel) (n / 10) (String (dec_digit n) acc)).
    destruct (n / 10 =? 0)%N; [cbn; lia|].
    etrans; [|apply IH]. cbn. lia.
Qed.

Lemma str_from_length_upper (fuel : nat) (n : N) (acc : string) (k : nat) :
  (n < 10 ^ N.of_nat (S k))%N →
  String.length (str_from fuel n acc) ≤ String.length acc + S k.
Proof.
  revert n acc k. induction fuel as [|fuel IH]; intros n acc k Hn; [cbn; lia|].
  cbn [str_from]. cbv zeta.
  destruct (N.eqb_spec (n / 10) 0) as [Hz|Hnz]; [cbn; lia|].
  destruct k as [|k].
  - exfalso. apply Hnz. apply N.div_small. exact Hn.
  - etrans; [apply (IH _ _ k)|cbn; lia].
    apply N.Div0.div_lt_upper_bound.
    by rewrite <- N.pow_succ_r', <- Nat2N.inj_succ.
Qed.

(** What [hash_to_numeric] returns on any input: a decimal numeral of at most
    78 digits. *)
Lemma hash_to_numeric_digits (input_string : string) :
  all_chars is_digit (hash_to_numeric input_string) = true
  ∧ 1 ≤ String.length (hash_to_numeric input_string) ≤ 78.
Proof.
  unfold hash_to_numeric. cbv zeta.
  destruct (int_base16_hexdigest (encode input_string)) as (v & -> & Hv).
  unfold str. split; [by apply str_from_digits|]. split.
  - apply (str_from_length_lower _ v "").
  - apply (str_from_length_upper _ v "" 77).
    eapply N.lt_le_trans; [exact Hv|]. by vm_compute.
Qed.

(** ** Addresses and their segments *)

Lemma all_chars_impl (P Q : ascii → bool) (s : string) :
  (∀ c, P c = true → Q c = true) → all_chars P s = true → all_chars Q s = true.
Proof.
  intros HPQ. induction s as [|c s IH]; [done|]. cbn.
  rewrite !andb_true_iff. intros [??]. auto.
Qed.

Lemma is_digit_not_slash (c : ascii) : is_digit c = true → not_slash c = true.
Proof.
  unfold is_digit, not_slash. intros [H1 _]%andb_true_iff. apply N.leb_le in H1.
  destruct (Ascii.eqb_spec c "/") as [->|]; [|done]. by vm_compute in H1.
Qed.

Lemma hash_to_numeric_is_key (input_string : string) :
  is_key (hash_to_numeric input_string) = true.
Proof.
  destruct (hash_to_numeric_digits input_string) as (Hd & Hlen & _).
  unfold is_key. apply andb_true_iff. split.
  - destruct (hash_to_numeric input_string); [cbn in Hlen; lia|done].
  - eapply all_chars_impl; [apply is_digit_not_slash|done].
Qed.

Lemma split_slash_cons (s : string) : ∃ seg segs, split_slash s = seg :: segs.
Proof.
  destruct s as [|c s]; [by eexists _, _|]. cbn.
  destruct (Ascii.eqb c "/"); [by eexists _, _|].
  destruct (split_slash s); by eexists _, _.
Qed.

Lemma split_slash_app (a b : string) :
  split_slash (a +:+ String "/" b) = split_slash a ++ split_slash b.
Proof.
  induction a as [|c a IH]; [reflexivity|].
  rewrite append_cons. cbn [split_slash]. rewrite IH.
  destruct (Ascii.eqb c "/"); [done|].
  by destruct (split_slash_cons a) as (seg & segs & ->).
Qed.

Lemma split_slash_key (s : string) :
  all_chars not_slash s = true → split_slash s = [s].
Proof.
  induction s as [|c s IH]; [done|]. cbn.
  intros [Hc Hs]%andb_true_iff. unfold not_slash in Hc.
  destruct (Ascii.eqb c "/"); [done|]. by rewrite IH.
Qed.

Lemma segments_app_slash (a b : string) :
  segments (a +:+ String "/" b) = segments a ++ segments b.
Proof. unfold segments. by rewrite split_slash_app, filter_app. Qed.

Lemma segments_key (key : string) : is_key key = true → segments key = [key].
Proof.
  unfold is_key, segments. intros [Hne Hns]%andb_true_iff.
  rewrite split_slash_key by done.
  destruct (String.eqb_spec key ""); [done|].
  by rewrite filter_cons_True.
Qed.

Lemma segments_app_folder (folder rest : string) :
  closed_folder folder → segments (folder +:+ rest) = segments folder ++ segments rest.
Proof.
  intros [->|[p ->]%endswith_spec]; [done|].
  rewrite append_assoc.
  change ("/" +:+ rest) with (String "/" rest).
  change (p +:+ "/") with (p +:+ String "/" "").
  by rewrite !segments_app_slash, app_nil_r.
Qed.

Lemma create_folder_closed (folder : string) : closed_folder (create_folder folder).
Proof.
  unfold create_folder. right.
  destruct (endswith folder "/") eqn:He; [done|].
  apply endswith_spec. by eexists.
Qed.

Lemma move_folder_closed (location : string) : closed_folder (move_folder location).
Proof.
  unfold move_folder.
  destruct (endswith location "/") eqn:He; [by right|].
  destruct (String.eqb_spec location "") as [->|]; [by left|].
  right. apply endswith_spec. by eexists.
Qed.

Lemma segments_flashcards (user_id rest : string) :
  segments ("/users/" +:+ user_id +:+ "/flashcards/" +:+ rest)
  = flashcards_path user_id ++ segments rest.
Proof.
  change ("/users/" +:+ user_id +:+ "/flashcards/" +:+ rest)
    with ("" +:+ String "/" ("users" +:+ String "/"
            (user_id +:+ String "/" ("flashcards" +:+ String "/" rest)))).
  rewrite !segments_app_slash.
  change (segments "") with (@nil string).
  change (segments "users") with ["users"].
  change (segments "flashcards") with ["flashcards"].
  unfold flashcards_path. cbn [app]. by rewrite <- app_assoc.
Qed.

(** The address of a set: below the folder, at its id. *)
Lemma segments_set_address (user_id folder flashcard_id : string) :
  closed_folder folder → is_key flashcard_id = true →
  segments ("/users/" +:+ user_id +:+ "/flashcards/" +:+ folder +:+ flashcard_id)
  = flashcards_path user_id ++ segments folder ++ [flashcard_id].
Proof.
  intros Hf Hk.
  rewrite segments_flashcards, segments_app_folder by done.
  by rewrite (segments_key flashcard_id).
Qed.

(** ** Reading after writing in the tree *)

Lemma navigate_app (p q : list string) (doc : json) :
  navigate (p ++ q) doc = navigate p doc ≫= navigate q.
Proof.
  revert doc. induction p as [|key p IH]; intros doc; [done|]. cbn.
  destruct doc; try done. destruct (fields !! key); cbn; [apply IH|done].
Qed.

Lemma navigate_save_app (p q : list string) (data doc : json) :
  navigate (p ++ q) (save_at p data doc) = navigate q data.
Proof.
  revert doc. induction p as [|key p IH]; intros doc; [done|]. cbn.
  rewrite lookup_insert_eq. cbn. apply IH.
Qed.

Lemma navigate_save_same (p : list string) (data doc : json) :
  navigate p (save_at p data doc) = Some data.
Proof. by rewrite <- (app_nil_r p) at 1; rewrite navigate_save_app. Qed.

Lemma navigate_children (key : string) (q : list string) (doc : json) :
  navigate (key :: q) doc = children doc !! key ≫= navigate q.
Proof. by destruct doc. Qed.

(** A write leaves every address that is neither above nor below it as it
    was. *)
Lemma navigate_save_other (p q : list string) (data doc : json) :
  ¬ p `prefix_of` q → ¬ q `prefix_of` p →
  navigate q (save_at p data doc) = navigate q doc.
Proof.
  revert q doc. induction p as [|key p IH]; intros q doc Hpq Hqp.
  { destruct Hpq. apply prefix_nil. }
  destruct q as [|key' q]. { destruct Hqp. apply prefix_nil. }
  cbn [save_at]. cbv zeta. rewrite !navigate_children. cbn [children].
  destruct (decide (key = key')) as [<-|Hne].
  - rewrite lookup_insert_eq. cbn.
    rewrite IH.
    + destruct (children doc !! key) as [child|]; [done|]. cbn.
      destruct q as [|key'' q]; [|done].
      destruct Hqp. apply prefix_cons, prefix_nil.
    + intros Hp. apply Hpq. by apply prefix_cons.
    + intros Hq. apply Hqp. by apply prefix_cons.
  - by rewrite lookup_insert_ne.
Qed.

Lemma db_get_save_same (db : json) (path : string) (data : json) :
  db_get (db_save db path data) path = Some data.
Proof. apply navigate_save_same. Qed.

Lemma exec_writes {A} (p : db_prog A) (db : json) :
  fst (exec p db) = fold_left (λ d w, db_save d w.1 w.2) (writes p db) db.
Proof.
  revert db. induction p as [r|path k IH|path data k IH]; intros db; cbn; [done|apply IH..].
Qed.

(** ** The ids of [hash_to_numeric] *)

(** C9, as stated, fails on owner [u], top-level folder and the names [a] and
    [e]: the two ids have 77 and 78 digits, so their lengths differ. *)
Lemma hash_to_numeric_length_differs :
  ¬ (String.length (hash_to_numeric ("u" +:+ create_folder "" +:+ "a"))
     = String.length (hash_to_numeric ("u" +:+ create_folder "" +:+ "e"))).
Proof. vm_compute. discriminate. Qed.

(** C9, amended: for every owner, folder path and name, the id computed by
    [hash_to_numeric] over their concatenation is a decimal numeral (digits
    only) of at least 1 and at most 78 characters; the length is not fixed. *)
Theorem hash_to_numeric_id_decimal (owner folder name : string) :
  all_chars is_digit (hash_to_numeric (owner +:+ folder +:+ name)) = true
  ∧ 1 ≤ String.length (hash_to_numeric (owner +:+ folder +:+ name)) ≤ 78.
Proof. apply hash_to_numeric_digits. Qed.

(** ** Folder normalisation *)

(** C6, as stated, fails: [create_flashcard] turns the empty folder into
    ["/"], [move_flashcard_set] keeps the root folder ["/"], and both keep the
    two separators that close ["a//"]. *)
Lemma folder_not_normalized_as_specified :
  ¬ normalized_as_specified "" (create_folder "")
  ∧ ¬ normalized_as_specified "/" (move_folder "/")
  ∧ ¬ normalized_as_specified "a//" (create_folder "a//")
  ∧ ¬ normalized_as_specified "a//" (move_folder "a//").
Proof.
  repeat split; intros [Hroot Hone].
  - by specialize (Hroot (or_introl eq_refl)).
  - by specialize (Hroot (or_intror eq_refl)).
  - by destruct (Hone ltac:(done)) as [_ ?].
  - by destruct (Hone ltac:(done)) as [_ ?].
Qed.

(** C6, amended: [create_flashcard] appends one separator to a folder that
    does not end with one, the empty folder included, so its path always ends
    with a separator; [move_flashcard_set] does the same except that it leaves
    the empty folder empty; a folder that already ends with a separator is
    used as it is (a root ["/"] stays ["/"], repeated separators are kept). *)
Theorem folder_normalization (folder : string) :
  endswith (create_folder folder) "/" = true
  ∧ (move_folder folder = "" ↔ folder = "")
  ∧ (folder = "" ∨ endswith (move_folder folder) "/" = true)
  ∧ (if endswith folder "/"
     then create_folder folder = folder ∧ move_folder folder = folder
     else create_folder folder = folder +:+ "/"
          ∧ (folder = "" ∨ move_folder folder = folder +:+ "/")).
Proof.
  unfold create_folder, move_folder.
  destruct (endswith folder "/") eqn:He; cbn.
  - repeat split; auto; intros ->; done.
  - assert (endswith (folder +:+ "/") "/" = true) as Happ.
    { apply endswith_spec. by eexists. }
    destruct (String.eqb_spec folder "") as [->|Hne]; cbn.
    + repeat split; auto.
    + repeat split; auto; try done.
      destruct folder; [done|]. rewrite append_cons. discriminate.
Qed.

(** ** Creation *)

(** C2, as stated, fails: the same request gets the same response from an
    empty database, where it writes the set, and from the database this
    leaves, where it writes nothing; no reading [told] of the response can
    tell the two apart. *)
Lemma create_response_hides_write :
  ¬ (∃ told : http_result → bool,
       (told (snd (exec (create_flashcard "u" "n" "d" sample_cards "a") empty_db)) = true
        ↔ writes (create_flashcard "u" "n" "d" sample_cards "a") empty_db ≠ [])
       ∧ (told (snd (exec (create_flashcard "u" "n" "d" sample_cards "a")
                      (fst (exec (create_flashcard "u" "n" "d" sample_cards "a")
                              empty_db)))) = true
          ↔ writes (create_flashcard "u" "n" "d" sample_cards "a")
              (fst (exec (create_flashcard "u" "n" "d" sample_cards "a") empty_db))
            ≠ [])).
Proof.
  intros (told & [_ Hwrote] & [Hkept _]).
  apply Hkept; [|by_evaluation].
  etrans; [|apply Hwrote; by_evaluation].
  f_equal; by_evaluation.
Qed.

(** One run of [create_flashcard]. *)
Lemma create_flashcard_run (db : json)
    (user_id flashcard_name flashcard_description : string) (cards : json)
    (folder : string) :
  let request :=
    create_flashcard user_id flashcard_name flashcard_description cards folder in
  let address := create_address user_id folder flashcard_name in
  let document :=
    flashcard_document (create_id user_id folder flashcard_name) flashcard_name
      flashcard_description cards in
  exec request db
    = (match db_get db address with None => db_save db address document | Some _ => db end,
       create_success)
  ∧ writes request db
    = match db_get db address with None => [(address, document)] | Some _ => [] end.
Proof.
  intros request address document. subst request address document.
  unfold create_flashcard, create_address, create_id. cbv zeta. cbn [exec writes].
  by destruct (db_get db _).
Qed.

(** C2, amended: [create_flashcard] writes the set document at its computed
    address only if no document exists there, and answers with the same
    success response whether it wrote or not. *)
Theorem create_writes_if_absent (db : json)
    (user_id flashcard_name flashcard_description : string) (cards : json)
    (folder : string) :
  let request :=
    create_flashcard user_id flashcard_name flashcard_description cards folder in
  let address := create_address user_id folder flashcard_name in
  let document :=
    flashcard_document (create_id user_id folder flashcard_name) flashcard_name
      flashcard_description cards in
  writes request db
    = match db_get db address with None => [(address, document)] | Some _ => [] end
  ∧ fst (exec request db)
    = match db_get db address with None => db_save db address document | Some _ => db end
  ∧ snd (exec request db) = create_success.
Proof.
  intros request address document.
  destruct (create_flashcard_run db user_id flashcard_name flashcard_description
              cards folder) as [Hexec Hwrites].
  cbv zeta in Hexec, Hwrites. subst request address document.
  by rewrite Hexec, Hwrites.
Qed.

(** C5: creating the same owner, folder and name twice leaves one document
    at the address: the second call writes nothing and leaves the database of
    the first call unchanged, whatever its description and cards; the document
    stored is the first call's when nothing was there before it (and the older
    one otherwise). *)
Theorem create_twice_first_wins (db : json) (user_id flashcard_name : string)
    (description1 description2 : string) (cards1 cards2 : json) (folder : string) :
  let first := create_flashcard user_id flashcard_name description1 cards1 folder in
  let second := create_flashcard user_id flashcard_name description2 cards2 folder in
  let address := create_address user_id folder flashcard_name in
  let db1 := fst (exec first db) in
  writes second db1 = []
  ∧ fst (exec second db1) = db1
  ∧ db_get (fst (exec second db1)) address
    = Some (match db_get db address with
            | None => flashcard_document (create_id user_id folder flashcard_name)
                        flashcard_name description1 cards1
            | Some older => older
            end).
Proof.
  intros first second address db1.
  destruct (create_flashcard_run db user_id flashcard_name description1 cards1 folder)
    as [Hfirst _].
  destruct (create_flashcard_run db1 user_id flashcard_name description2 cards2 folder)
    as [Hsecond Hwrites].
  cbv zeta in Hfirst, Hsecond, Hwrites. fold address in Hfirst, Hsecond, Hwrites.
  fold second in Hsecond, Hwrites. fold first in Hfirst.
  assert (db_get db1 address
          = Some (match db_get db address with
                  | None => flashcard_document (create_id user_id folder flashcard_name)
                              flashcard_name description1 cards1
                  | Some older => older
                  end)) as Hstored.
  { unfold db1. rewrite Hfirst. cbn [fst].
    destruct (db_get db address) as [older|] eqn:Hget; [done|].
    apply db_get_save_same. }
  rewrite Hwrites, Hsecond, Hstored. cbn [fst]. by rewrite Hstored.
Qed.

(** ** Moving a set *)

(** The run of a move whose source folder holds the set. *)
Lemma move_flashcard_set_run (db : json)
    (user_id flashcard_id move_location current_location : string)
    (fields : gmap string json) (flashcard : json) :
  db_get db (move_source_address user_id current_location) = Some (JMap fields) →
  fields !! flashcard_id = Some flashcard →
  let request :=
    move_flashcard_set user_id flashcard_id move_location current_location in
  let source := move_source_address user_id current_location in
  let destination := move_new_address user_id move_location flashcard_id in
  let reduced := JMap (delete flashcard_id fields) in
  exec request db
    = (db_save (db_save db source reduced) destination flashcard,
       move_success user_id (move_folder current_location) flashcard_id
         (move_folder move_location))
  ∧ writes request db = [(source, reduced); (destination, flashcard)]
  ∧ reads request db = [source]
  ∧ exec_interrupted 0 request db = db
  ∧ exec_interrupted 1 request db = db_save db source reduced
  ∧ exec_interrupted 2 request db = db_save (db_save db source reduced) destination flashcard.
Proof.
  intros Hsource Hfield request source destination reduced.
  subst request source destination reduced.
  unfold move_flashcard_set, move_source_address, move_new_address in *. cbv zeta.
  cbn [exec writes reads exec_interrupted]. rewrite Hsource, Hfield.
  cbn [exec writes reads exec_interrupted]. done.
Qed.

(** The run of a move that answers before writing. *)
Lemma move_flashcard_set_stops (db : json)
    (user_id flashcard_id move_location current_location : string) :
  let request :=
    move_flashcard_set user_id flashcard_id move_location current_location in
  let not_found := move_not_found user_id (move_folder current_location) flashcard_id in
  match db_get db (move_source_address user_id current_location) with
  | None => exec request db = (db, not_found) ∧ writes request db = []
  | Some (JMap fields) =>
      match fields !! flashcard_id with
      | None => exec request db = (db, not_found) ∧ writes request db = []
      | Some flashcard => True
      end
  | Some _ => exec request db = (db, Unhandled "AttributeError") ∧ writes request db = []
  end.
Proof.
  intros request not_found. subst request not_found.
  unfold move_flashcard_set, move_source_address. cbv zeta.
  cbn [exec writes].
  destruct (db_get db _) as [[| | | |fields]|]; cbn [exec writes]; try done.
  by destruct (fields !! flashcard_id).
Qed.

Lemma move_success_not_not_found (a b c d e f g : string) :
  move_success a b c d ≠ move_not_found e f g.
Proof. unfold move_success, move_not_found. intros H. injection H as _ H. discriminate H. Qed.

(** Where the source address holds no document or a mapping, the test of
    line 225 decides: [move_flashcard_set] answers with the not-found error
    exactly when the source folder document is absent or is a mapping without
    the set id, and then it has written nothing: the database is as before. *)
Theorem move_not_found_iff (db : json)
    (user_id flashcard_id move_location current_location : string) :
  let request :=
    move_flashcard_set user_id flashcard_id move_location current_location in
  let not_found := move_not_found user_id (move_folder current_location) flashcard_id in
  let source := db_get db (move_source_address user_id current_location) in
  (snd (exec request db) = not_found
   ↔ source = None ∨ ∃ fields, source = Some (JMap fields) ∧ fields !! flashcard_id = None)
  ∧ (snd (exec request db) = not_found → fst (exec request db) = db ∧ writes request db = [])
  ∧ is_error not_found = true.
Proof.
  intros request not_found source.
  pose proof (move_flashcard_set_stops db user_id flashcard_id move_location
                current_location) as Hstop.
  cbv zeta in Hstop. fold request not_found source in Hstop.
  assert (snd (exec request db) = not_found
          → (source = None
             ∨ ∃ fields, source = Some (JMap fields) ∧ fields !! flashcard_id = None)
            ∧ fst (exec request db) = db ∧ writes request db = []) as Hfound.
  { destruct source as [[| | | |fields]|] eqn:Hsource.
    1-4: destruct Hstop as [-> _]; discriminate.
    - destruct (fields !! flashcard_id) as [flashcard|] eqn:Hfield.
      + destruct (move_flashcard_set_run db user_id flashcard_id move_location
                    current_location fields flashcard Hsource Hfield) as [Hexec _].
        cbv zeta in Hexec. fold request in Hexec. rewrite Hexec. cbn [snd].
        intros Heq. by apply move_success_not_not_found in Heq.
      + destruct Hstop as [-> ->]. intros _. split; [|done]. right. by exists fields.
    - destruct Hstop as [-> ->]. intros _. split; [|done]. by left. }
  split; [split|split].
  - intros H. by apply Hfound.
  - intros [Hnone|(fields & Hsome & Hfield)].
    + rewrite Hnone in Hstop. by destruct Hstop as [-> _].
    + rewrite Hsome, Hfield in Hstop. by destruct Hstop as [-> _].
  - intros H. by apply Hfound.
  - done.
Qed.

(** Moving out of a folder that does not exist. *)
Lemma move_not_found_iff_witness :
  snd (exec (move_flashcard_set "u" "1" "b" "a") empty_db)
  = move_not_found "u" (move_folder "a") "1"
  ∧ fst (exec (move_flashcard_set "u" "1" "b" "a") empty_db) = empty_db
  ∧ writes (move_flashcard_set "u" "1" "b" "a") empty_db = [].
Proof.
  destruct (move_not_found_iff empty_db "u" "1" "b" "a") as ([_ Hif] & Hkept & _).
  assert (snd (exec (move_flashcard_set "u" "1" "b" "a") empty_db)
          = move_not_found "u" (move_folder "a") "1") as Hnf.
  { apply Hif. left. by_evaluation. }
  split; [exact Hnf|]. apply Hkept, Hnf.
Defined.

(** C8: the move does not answer with the not-found error whenever the source
    folder document does not contain the set id. In the database holding one
    set, a move of set [1] out of the current location that names the cards
    of that set finds a document at the source address, the list of cards,
    which contains no set [1]; the test of line 225 asks that list for its
    keys and raises [AttributeError] where the not-found error is due, so the
    answer C8 asks for is not the one given. Nothing has been written by
    then: the database is as before. *)
Theorem move_not_found_missed_on_list :
  db_get one_set_db (move_source_address "u" one_set_cards_location) = Some sample_cards
  ∧ contains_set sample_cards "1" = false
  ∧ snd (exec (move_flashcard_set "u" "1" "b" one_set_cards_location) one_set_db)
    = Unhandled "AttributeError"
  ∧ snd (exec (move_flashcard_set "u" "1" "b" one_set_cards_location) one_set_db)
    ≠ move_not_found "u" (move_folder one_set_cards_location) "1"
  ∧ ¬ move_not_found_as_specified one_set_db "u" "1" "b" one_set_cards_location
  ∧ fst (exec (move_flashcard_set "u" "1" "b" one_set_cards_location) one_set_db)
    = one_set_db
  ∧ writes (move_flashcard_set "u" "1" "b" one_set_cards_location) one_set_db = [].
Proof.
  assert (db_get one_set_db (move_source_address "u" one_set_cards_location)
          = Some sample_cards) as Hsource by by_evaluation.
  assert (snd (exec (move_flashcard_set "u" "1" "b" one_set_cards_location) one_set_db)
          = Unhandled "AttributeError") as Hraises by by_evaluation.
  split; [exact Hsource|]. split; [reflexivity|]. split; [exact Hraises|].
  split; [rewrite Hraises; discriminate|]. split; [|by_evaluation].
  unfold move_not_found_as_specified. cbv zeta. intros [_ Hif].
  rewrite Hraises in Hif. rewrite Hsource in Hif.
  assert (Unhandled "AttributeError"
          = move_not_found "u" (move_folder one_set_cards_location) "1") as Hnf.
  { apply Hif. right. exists sample_cards. split; reflexivity. }
  discriminate Hnf.
Qed.

(** C10: when the source folder holds the set, [move_flashcard_set] succeeds
    and the destination address then holds the moved set document, whatever
    document was there before: the only address the run reads is the source
    folder, and its last write puts the set at the destination. *)
Theorem move_overwrites_destination (db : json)
    (user_id flashcard_id move_location current_location : string)
    (fields : gmap string json) (flashcard existing : json) :
  db_get db (move_source_address user_id current_location) = Some (JMap fields) →
  fields !! flashcard_id = Some flashcard →
  db_get db (move_new_address user_id move_location flashcard_id) = Some existing →
  let request :=
    move_flashcard_set user_id flashcard_id move_location current_location in
  let destination := move_new_address user_id move_location flashcard_id in
  snd (exec request db)
    = move_success user_id (move_folder current_location) flashcard_id
        (move_folder move_location)
  ∧ reads request db = [move_source_address user_id current_location]
  ∧ last (writes request db) = Some (destination, flashcard)
  ∧ db_get (fst (exec request db)) destination = Some flashcard.
Proof.
  intros Hsource Hfield _ request destination.
  destruct (move_flashcard_set_run db user_id flashcard_id move_location
              current_location fields flashcard Hsource Hfield)
    as (Hexec & Hwrites & Hreads & _).
  cbv zeta in Hexec, Hwrites, Hreads. fold request destination in Hexec, Hwrites, Hreads.
  rewrite Hexec, Hwrites, Hreads. cbn [fst snd].
  repeat split. apply db_get_save_same.
Qed.

(** C10 at work: the document [kept] at [b/1] is replaced by [moved]. *)
Lemma move_overwrites_destination_witness :
  db_get two_folders_db (move_new_address "u" "b" "1") = Some (JStr "kept")
  ∧ db_get (fst (exec (move_flashcard_set "u" "1" "b" "a") two_folders_db))
      (move_new_address "u" "b" "1") = Some (JStr "moved").
Proof.
  split; [by_evaluation|].
  refine (proj2 (proj2 (proj2
    (move_overwrites_destination two_folders_db "u" "1" "b" "a"
       {["1" := JStr "moved"]} (JStr "moved") (JStr "kept") _ _ _))));
    by_evaluation.
Defined.

(** The old address of a set lies one key below its folder. *)
Lemma segments_move_old (user_id current_location flashcard_id : string) :
  is_key flashcard_id = true →
  segments (move_old_address user_id current_location flashcard_id)
  = segments (move_source_address user_id current_location) ++ [flashcard_id].
Proof.
  intros Hkey. unfold move_old_address, move_source_address.
  rewrite segments_set_address by (done || apply move_folder_closed).
  by rewrite segments_flashcards, app_assoc.
Qed.

Lemma db_get_child (db : json) (folder child : string) (key : string)
    (fields : gmap string json) :
  segments child = segments folder ++ [key] →
  db_get db folder = Some (JMap fields) →
  db_get db child = fields !! key.
Proof.
  unfold db_get. intros -> Hfolder. rewrite navigate_app, Hfolder. cbn.
  by destruct (fields !! key).
Qed.

Lemma db_get_save_child (db : json) (folder child : string) (key : string)
    (fields : gmap string json) :
  segments child = segments folder ++ [key] →
  db_get (db_save db folder (JMap fields)) child = fields !! key.
Proof.
  intros Hchild. apply (db_get_child _ folder); [done|]. apply db_get_save_same.
Qed.

Lemma db_get_save_other (db : json) (written read : string) (data : json) :
  ¬ segments written `prefix_of` segments read →
  ¬ segments read `prefix_of` segments written →
  db_get (db_save db written data) read = db_get db read.
Proof. intros ??. by apply navigate_save_other. Qed.

(** C3, as stated, fails on a move that names the folder the set is in: the
    move succeeds, the new address is the old one, and a read there returns
    the set, not absent. *)
Lemma move_within_folder_not_absent :
  ¬ move_relocates one_set_db "u" one_set_id "a" "a".
Proof.
  intros Hmove.
  destruct (Hmove (flashcard_document one_set_id "n" "d" sample_cards)) as [_ Hold];
    [by_evaluation..|].
  vm_compute in Hold. discriminate Hold.
Qed.

(** C3, amended: for a set stored under its id (one path segment) in the
    source folder, when neither of the old and new addresses is a path prefix
    of the other, the move succeeds, a read at the new address returns the
    very document that was at the old address, a read at the old address
    returns absent, and the new address ends in the same id. *)
Theorem move_preserves_document (db : json)
    (user_id flashcard_id move_location current_location : string)
    (fields : gmap string json) (flashcard : json) :
  is_key flashcard_id = true →
  db_get db (move_source_address user_id current_location) = Some (JMap fields) →
  fields !! flashcard_id = Some flashcard →
  let request :=
    move_flashcard_set user_id flashcard_id move_location current_location in
  let old := move_old_address user_id current_location flashcard_id in
  let new := move_new_address user_id move_location flashcard_id in
  ¬ segments old `prefix_of` segments new →
  ¬ segments new `prefix_of` segments old →
  db_get db old = Some flashcard
  ∧ snd (exec request db)
    = move_success user_id (move_folder current_location) flashcard_id
        (move_folder move_location)
  ∧ db_get (fst (exec request db)) new = Some flashcard
  ∧ db_get (fst (exec request db)) old = None
  ∧ last (segments new) = Some flashcard_id.
Proof.
  intros Hkey Hsource Hfield request old new Hold Hnew.
  pose proof (segments_move_old user_id current_location flashcard_id Hkey) as Hsegs.
  fold old in Hsegs.
  destruct (move_flashcard_set_run db user_id flashcard_id move_location
              current_location fields flashcard Hsource Hfield) as (Hexec & _).
  cbv zeta in Hexec. fold request new in Hexec. rewrite Hexec. cbn [fst snd].
  split; [|split; [done|split; [|split]]].
  - by rewrite (db_get_child db _ old flashcard_id fields Hsegs Hsource).
  - apply db_get_save_same.
  - rewrite db_get_save_other by done.
    rewrite (db_get_save_child db _ old flashcard_id _ Hsegs).
    apply lookup_delete_eq.
  - unfold new, move_new_address.
    rewrite segments_set_address by (done || apply move_folder_closed).
    by rewrite !app_assoc, last_snoc.
Qed.

(** C3 at work: the set of [one_set_db] moved from folder [a] to folder [b]. *)
Lemma move_preserves_document_witness :
  db_get (fst (exec (move_flashcard_set "u" one_set_id "b" "a") one_set_db))
    (move_new_address "u" "b" one_set_id)
  = Some (flashcard_document one_set_id "n" "d" sample_cards)
  ∧ db_get (fst (exec (move_flashcard_set "u" one_set_id "b" "a") one_set_db))
      (move_old_address "u" "a" one_set_id) = None.
Proof.
  destruct (move_preserves_document one_set_db "u" one_set_id "b" "a"
              {[one_set_id := flashcard_document one_set_id "n" "d" sample_cards]}
              (flashcard_document one_set_id "n" "d" sample_cards))
    as (_ & _ & Hnew & Hold & _).
  - by_evaluation.
  - by_evaluation.
  - by_evaluation.
  - vm_compute. intros [k Hk]. discriminate Hk.
  - vm_compute. intros [k Hk]. discriminate Hk.
  - by split.
Defined.

(** C1, as stated, fails on the move of the set of [one_set_db] from folder
    [a] to folder [b]: stopped after the first of its two writes, the set is
    at neither address. *)
Lemma move_interrupted_loses_set :
  length (writes (move_flashcard_set "u" one_set_id "b" "a") one_set_db) = 2
  ∧ ¬ at_exactly_one
        (exec_interrupted 1 (move_flashcard_set "u" one_set_id "b" "a") one_set_db)
        (move_old_address "u" "a" one_set_id) (move_new_address "u" "b" one_set_id).
Proof.
  split; [by_evaluation|].
  intros [[Hold _]|[_ Hnew]]; [apply Hold|apply Hnew]; by_evaluation.
Qed.

(** C1, amended: the move is not atomic. It makes two separate writes, first
    the source folder document without the set's entry, then the set
    document at the destination address. Stopped between the two, it leaves
    the database of the first write alone, in which a read at the set's old
    address returns absent; the second write alone completes the move. *)
Theorem move_is_two_writes (db : json)
    (user_id flashcard_id move_location current_location : string)
    (fields : gmap string json) (flashcard : json) :
  is_key flashcard_id = true →
  db_get db (move_source_address user_id current_location) = Some (JMap fields) →
  fields !! flashcard_id = Some flashcard →
  let request :=
    move_flashcard_set user_id flashcard_id move_location current_location in
  let source := move_source_address user_id current_location in
  let old := move_old_address user_id current_location flashcard_id in
  let new := move_new_address user_id move_location flashcard_id in
  let middle := exec_interrupted 1 request db in
  writes request db = [(source, JMap (delete flashcard_id fields)); (new, flashcard)]
  ∧ middle = db_save db source (JMap (delete flashcard_id fields))
  ∧ db_get middle old = None
  ∧ fst (exec request db) = db_save middle new flashcard.
Proof.
  intros Hkey Hsource Hfield request source old new middle.
  pose proof (segments_move_old user_id current_location flashcard_id Hkey) as Hsegs.
  fold old source in Hsegs.
  destruct (move_flashcard_set_run db user_id flashcard_id move_location
              current_location fields flashcard Hsource Hfield)
    as (Hexec & Hwrites & _ & _ & Hmiddle & _).
  cbv zeta in Hexec, Hwrites, Hmiddle.
  fold request source new in Hexec, Hwrites, Hmiddle. fold middle in Hmiddle.
  rewrite Hexec, Hwrites, Hmiddle. cbn [fst].
  repeat split.
  rewrite (db_get_save_child db source old flashcard_id _ Hsegs).
  apply lookup_delete_eq.
Qed.

(** C1 at work: the interrupted move of the set of [one_set_db]. *)
Lemma move_is_two_writes_witness :
  db_get (exec_interrupted 1 (move_flashcard_set "u" one_set_id "b" "a") one_set_db)
    (move_old_address "u" "a" one_set_id) = None.
Proof.
  refine (proj1 (proj2 (proj2
    (move_is_two_writes one_set_db "u" one_set_id "b" "a"
       {[one_set_id := flashcard_document one_set_id "n" "d" sample_cards]}
       (flashcard_document one_set_id "n" "d" sample_cards) _ _ _))));
    by_evaluation.
Defined.

(** ** Today's cards *)

(** C7: for a user with no stored hierarchy, [get_today_cards] answers with
    the status 200 and the one-item list ["User has no flashcards"], which
    holds no card and is not an error response; it writes nothing. *)
Theorem get_today_cards_no_hierarchy (today_card_list : json → json) (db : json)
    (user_id : string) :
  db_get db ("/users/" +:+ user_id +:+ "/flashcards") = None →
  exec (get_today_cards today_card_list user_id) db
    = (db, Reply (Some (JSeq [JStr "User has no flashcards"])) 200)
  ∧ is_error (snd (exec (get_today_cards today_card_list user_id) db)) = false
  ∧ writes (get_today_cards today_card_list user_id) db = [].
Proof.
  intros Habsent. unfold get_today_cards. cbn [exec writes]. rewrite Habsent.
  by cbn [exec writes snd].
Qed.

(** C7 at work: a user of the empty database. *)
Lemma get_today_cards_no_hierarchy_witness :
  exec (get_today_cards (λ flashcards, flashcards) "u") empty_db
  = (empty_db, Reply (Some (JSeq [JStr "User has no flashcards"])) 200).
Proof.
  refine (proj1 (get_today_cards_no_hierarchy (λ flashcards, flashcards) empty_db "u" _)).
  by_evaluation.
Defined.

(** Every response whose body carries an ["error"] message is an error
    response, whatever its status: so are the errors of this module. *)
Lemma is_error_error_body (message : string) (status : Z) :
  is_error (Reply (error_body message) status) = true.
Proof.
  unfold is_error, error_body. rewrite lookup_singleton_eq.
  apply orb_true_r.
Qed.

(** ** Reading a set back by owner and name *)

(** C4, as stated, fails when the folder is named like the id that
    [get_flashcard] computes: for owner [u] and name [n], created from the
    empty database in the folder [hash_to_numeric "un"], the lookup address is
    that folder, and the read returns the folder's mapping, not absent. *)
Lemma get_after_create_finds_folder :
  ¬ get_after_create_absent empty_db "u" "n" "d" sample_cards
      (hash_to_numeric ("u" +:+ "n")).
Proof. unfold get_after_create_absent. vm_compute. discriminate. Qed.

Lemma create_folder_nonempty (folder : string) : create_folder folder ≠ "".
Proof.
  pose proof (folder_closed := create_folder_closed folder).
  unfold create_folder in *. destruct (endswith folder "/") eqn:He.
  - intros ->. discriminate He.
  - destruct folder; [discriminate|]. rewrite append_cons. discriminate.
Qed.

(** C4, amended: [get_flashcard] hashes owner and name only and reads
    [/users/{owner}/flashcards/{id}]; [create_flashcard] hashes owner, the
    folder closed by a separator (never empty) and name, and stores the set
    below the folder's segments. The two hashed strings always differ. When
    the two ids differ, the first segment of the folder is not the lookup id
    and the lookup address held nothing before, [get_flashcard] after
    [create_flashcard] returns absent. *)
Theorem get_flashcard_misses_created (db : json)
    (user_id flashcard_name flashcard_description : string) (cards : json)
    (folder : string) :
  let lookup_id := hash_to_numeric (user_id +:+ flashcard_name) in
  db_get db (get_address user_id flashcard_name) = None →
  create_id user_id folder flashcard_name ≠ lookup_id →
  head (segments (create_folder folder)) ≠ Some lookup_id →
  user_id +:+ create_folder folder +:+ flashcard_name ≠ user_id +:+ flashcard_name
  ∧ create_folder folder ≠ ""
  ∧ segments (get_address user_id flashcard_name) = flashcards_path user_id ++ [lookup_id]
  ∧ segments (create_address user_id folder flashcard_name)
    = flashcards_path user_id ++ segments (create_folder folder)
        ++ [create_id user_id folder flashcard_name]
  ∧ exec (get_flashcard user_id flashcard_name)
      (fst (exec (create_flashcard user_id flashcard_name flashcard_description
                    cards folder) db))
    = (fst (exec (create_flashcard user_id flashcard_name flashcard_description
                    cards folder) db),
       Reply None 200).
Proof.
  intros lookup_id Habsent Hids Hhead.
  assert (segments (get_address user_id flashcard_name)
          = flashcards_path user_id ++ [lookup_id]) as Hget.
  { unfold get_address. rewrite segments_flashcards.
    rewrite segments_key by apply hash_to_numeric_is_key. reflexivity. }
  assert (segments (create_address user_id folder flashcard_name)
          = flashcards_path user_id ++ segments (create_folder folder)
              ++ [create_id user_id folder flashcard_name]) as Hcreate.
  { apply segments_set_address; [apply create_folder_closed|].
    apply hash_to_numeric_is_key. }
  split; [|split; [apply create_folder_nonempty|split; [exact Hget|split; [exact Hcreate|]]]].
  { intros Heq. apply (f_equal String.length) in Heq.
    rewrite !length_append in Heq.
    pose proof (create_folder_nonempty folder).
    destruct (create_folder folder); [congruence|]. cbn [String.length] in Heq. lia. }
  destruct (create_flashcard_run db user_id flashcard_name flashcard_description
              cards folder) as [Hrun _].
  cbv zeta in Hrun. rewrite Hrun.
  cbn [fst]. unfold get_flashcard. cbv zeta. cbn [exec].
  fold (get_address user_id flashcard_name).
  destruct (db_get db (create_address user_id folder flashcard_name)) as [older|].
  { rewrite Habsent. reflexivity. }
  rewrite db_get_save_other.
  - rewrite Habsent. reflexivity.
  - rewrite Hget, Hcreate.
    intros Hprefix%prefix_app_inv.
    destruct (segments (create_folder folder)) as [|seg segs].
    + apply prefix_cons_inv_1 in Hprefix. exact (Hids Hprefix).
    + apply prefix_cons_inv_2, prefix_nil_inv in Hprefix.
      destruct segs; discriminate Hprefix.
  - rewrite Hget, Hcreate.
    intros Hprefix%prefix_app_inv.
    destruct (segments (create_folder folder)) as [|seg segs].
    + apply prefix_cons_inv_1 in Hprefix. exact (Hids (eq_sym Hprefix)).
    + apply prefix_cons_inv_1 in Hprefix. apply Hhead. by rewrite Hprefix.
Qed.

(** C4 at work: the set of [one_set_db] is not found by owner and name. *)
Lemma get_flashcard_misses_created_witness :
  exec (get_flashcard "u" "n") one_set_db = (one_set_db, Reply None 200).
Proof.
  refine (proj2 (proj2 (proj2 (proj2
    (get_flashcard_misses_created empty_db "u" "n" "d" sample_cards "a" _ _ _))))).
  - by_evaluation.
  - vm_compute. discriminate.
  - vm_compute. discriminate.
Defined.

(** * Further properties of the module *)

(** ** The id as a number *)

Lemma be_value_from (bs : list N) (acc : N) :
  fold_left (λ acc b, (acc * 256 + b)%N) bs acc
  = (acc * 256 ^ N.of_nat (length bs) + be_value bs)%N.
Proof.
  unfold be_value. revert acc. induction bs as [|b bs IH]; intros acc.
  - cbn. lia.
  - cbn [fold_left length]. rewrite IH, (IH (0 * 256 + b)%N).
    rewrite Nat2N.inj_succ, N.pow_succ_r'. lia.
Qed.

Lemma be_value_bound (bs : list N) :
  Forall (λ b, (b < 256)%N) bs → (be_value bs < 256 ^ N.of_nat (length bs))%N.
Proof.
  induction 1 as [|b bs Hb _ IH]; [by vm_compute|].
  unfold be_value. cbn [fold_left length]. rewrite be_value_from.
  rewrite Nat2N.inj_succ, N.pow_succ_r'. nia.
Qed.

Lemma be_value_inj (bs1 bs2 : list N) :
  length bs1 = length bs2 →
  Forall (λ b, (b < 256)%N) bs1 → Forall (λ b, (b < 256)%N) bs2 →
  be_value bs1 = be_value bs2 → bs1 = bs2.
Proof.
  revert bs2. induction bs1 as [|b1 bs1 IH]; intros [|b2 bs2] Hlen H1 H2 Heq;
    try discriminate; [done|].
  injection Hlen as Hlen.
  apply Forall_cons in H1 as [Hb1 H1]. apply Forall_cons in H2 as [Hb2 H2].
  unfold be_value in Heq. cbn [fold_left] in Heq. rewrite !be_value_from in Heq.
  pose proof (be_value_bound bs1 H1) as Hv1.
  pose proof (be_value_bound bs2 H2) as Hv2.
  rewrite Hlen in Heq, Hv1.
  assert (b1 = b2) as -> by nia.
  f_equal. apply IH; [done..|]. lia.
Qed.

Lemma digest_bytes (msg : list N) : Forall (λ b, (b < 256)%N) (SHA256.digest msg).
Proof.
  unfold SHA256.digest. cbv zeta. rewrite !Forall_app.
  assert (∀ k x, Forall (λ b, (b < 256)%N) (SHA256.be_bytes k x)) as Hbytes.
  { intros k x. unfold SHA256.be_bytes. apply List.Forall_forall.
    intros b [i [<- _]]%in_map_iff. by apply N.mod_lt. }
  repeat split; apply Hbytes.
Qed.

Lemma hex_value_hex_digit_exact (n : N) :
  (n < 16)%N → hex_value (hex_digit n) = Some n.
Proof.
  intros Hn. unfold hex_digit.
  rewrite <- (N2Nat.id n) at 2.
  assert (N.to_nat n < 16) as Hk by lia.
  generalize dependent (N.to_nat n). intros k Hk.
  do 16 (destruct k as [|k]; [vm_compute; reflexivity|]). lia.
Qed.

Lemma int_base16_from_hex_value (bs : list N) (acc : N) :
  Forall (λ b, (b < 256)%N) bs →
  int_base16_from acc (hex_of_bytes bs)
  = Some (fold_left (λ acc b, (acc * 256 + b)%N) bs acc).
Proof.
  intros Hbs. revert acc. induction Hbs as [|b bs Hb _ IH]; intros acc; [done|].
  cbn [hex_of_bytes int_base16_from fold_left].
  pose proof (N.div_mod b 16 ltac:(done)) as Hdiv.
  pose proof (N.mod_upper_bound b 16 ltac:(done)) as Hmod.
  assert (b / 16 < 16)%N as Hquot by (apply N.Div0.div_lt_upper_bound; lia).
  rewrite !hex_value_hex_digit_exact by done.
  rewrite IH. f_equal. f_equal.
  generalize dependent (b / 16)%N. generalize dependent (b mod 16)%N. intros. lia.
Qed.

(** [int(hexdigest, 16)] is the number of the digest. *)
Lemma int_base16_hexdigest_value (msg : list N) :
  int_base16 (hexdigest msg) = Some (be_value (SHA256.digest msg)).
Proof.
  unfold hexdigest, be_value.
  rewrite <- (int_base16_from_hex_value _ 0) by apply digest_bytes.
  pose proof (length_digest msg) as Hlen.
  by destruct (SHA256.digest msg).
Qed.

Lemma dec_value_from_app (s1 s2 : string) (acc : N) :
  dec_value_from acc (s1 +:+ s2) = dec_value_from (dec_value_from acc s1) s2.
Proof.
  revert acc. induction s1 as [|c s1 IH]; intros acc; [done|].
  rewrite append_cons. cbn [dec_value_from]. apply IH.
Qed.

Lemma N_of_ascii_dec_digit (n : N) : N_of_ascii (dec_digit n) = (48 + n mod 10)%N.
Proof.
  unfold dec_digit.
  pose proof (N.mod_upper_bound n 10 ltac:(done)) as Hlt.
  generalize dependent (n mod 10)%N. intros d Hlt.
  apply N_ascii_embedding. lia.
Qed.

(** What [str_from] puts in front of [acc]: the decimal digits of [n], which
    read back as [n] and do not start with a zero unless [n] is 0. *)
Lemma str_from_digits_of (fuel : nat) (n : N) (acc : string) :
  (n < 10 ^ N.of_nat fuel)%N →
  ∃ digits, str_from fuel n acc = digits +:+ acc
            ∧ dec_value digits = n
            ∧ (n ≠ 0%N → ∃ c rest, digits = String c rest ∧ c ≠ "0"%char).
Proof.
  revert n acc. induction fuel as [|fuel IH]; intros n acc Hn.
  { exists "". cbn in Hn. repeat split; [cbn; lia|]. intros Hne. lia. }
  cbn [str_from]. cbv zeta.
  pose proof (N.div_mod n 10 ltac:(done)) as Hdiv.
  pose proof (N.mod_upper_bound n 10 ltac:(done)) as Hmod.
  pose proof (N_of_ascii_dec_digit n) as Hcode.
  destruct (N.eqb_spec (n / 10) 0) as [Hz|Hnz].
  - exists (String (dec_digit n) ""). split; [done|]. split.
    + unfold dec_value. cbn [dec_value_from]. rewrite Hcode.
      generalize dependent (n / 10)%N. generalize dependent (n mod 10)%N. intros. lia.
    + intros Hne. eexists _, _. split; [done|]. intros Hzero.
      rewrite Hzero in Hcode. change (N_of_ascii "0") with 48%N in Hcode.
      generalize dependent (n / 10)%N. generalize dependent (n mod 10)%N. intros. lia.
  - destruct (IH (n / 10)%N (String (dec_digit n) acc)) as (digits & Heq & Hval & Hlead).
    { apply N.Div0.div_lt_upper_bound.
      by rewrite <- N.pow_succ_r', <- Nat2N.inj_succ. }
    exists (digits +:+ String (dec_digit n) ""). split; [|split].
    + rewrite Heq. by rewrite append_assoc.
    + unfold dec_value in *. rewrite dec_value_from_app, Hval.
      cbn [dec_value_from]. rewrite Hcode.
      generalize dependent (n / 10)%N. generalize dependent (n mod 10)%N. intros. lia.
    + intros _. destruct (Hlead Hnz) as (c & rest & -> & Hc).
      eexists _, _. split; [apply append_cons|done].
Qed.

Lemma str_fuel (n : N) : (n < 10 ^ N.of_nat (S (N.to_nat (N.log2 n))))%N.
Proof.
  rewrite Nat2N.inj_succ, N2Nat.id.
  destruct (N.eq_dec n 0%N) as [->|Hne]; [by vm_compute|].
  destruct (N.log2_spec n ltac:(lia)) as [_ Hlt].
  eapply N.lt_le_trans; [exact Hlt|].
  apply N.pow_le_mono_l. lia.
Qed.

(** [int(str(n)) = n], and [str(n)] has no leading zero. *)
Lemma str_spec (n : N) :
  dec_value (str n) = n
  ∧ (n ≠ 0%N → ∃ c rest, str n = String c rest ∧ c ≠ "0"%char).
Proof.
  unfold str.
  destruct (str_from_digits_of _ n "" (str_fuel n)) as (digits & -> & Hval & Hlead).
  by rewrite append_nil_r.
Qed.


(** X1: the id that [hash_to_numeric] returns, read back as a decimal
    number, is the 256-bit number of the SHA-256 digest of the input (its 32
    bytes, most significant first): rendering the digest in base 16, reading
    it and printing it in base 10 loses nothing. *)
Theorem hash_to_numeric_reads_back (input_string : string) :
  dec_value (hash_to_numeric input_string)
  = be_value (SHA256.digest (encode input_string))
  ∧ (be_value (SHA256.digest (encode input_string)) < 2 ^ 256)%N.
Proof.
  unfold hash_to_numeric. cbv zeta. rewrite int_base16_hexdigest_value.
  split; [apply str_spec|].
  pose proof (be_value_bound _ (digest_bytes (encode input_string))) as Hlt.
  by rewrite length_digest in Hlt.
Qed.

(** X2: an id of [hash_to_numeric] is a canonical decimal numeral: it is
    ["0"], or it does not start with the digit 0. *)
Theorem hash_to_numeric_canonical (input_string : string) :
  hash_to_numeric input_string = "0"
  ∨ ∃ c rest, hash_to_numeric input_string = String c rest ∧ c ≠ "0"%char.
Proof.
  unfold hash_to_numeric. cbv zeta. rewrite int_base16_hexdigest_value.
  destruct (N.eq_dec (be_value (SHA256.digest (encode input_string))) 0%N) as [->|Hne].
  - by left.
  - right. by apply str_spec.
Qed.

(** X3: two inputs get the same id from [hash_to_numeric] exactly when their
    SHA-256 digests are equal: the only collisions between ids are the
    collisions of the digest. *)
Theorem hash_to_numeric_eq_iff_digest (input1 input2 : string) :
  hash_to_numeric input1 = hash_to_numeric input2
  ↔ SHA256.digest (encode input1) = SHA256.digest (encode input2).
Proof.
  split.
  - unfold hash_to_numeric. cbv zeta. rewrite !int_base16_hexdigest_value.
    intros Heq. apply (f_equal dec_value) in Heq.
    rewrite !(proj1 (str_spec _)) in Heq.
    apply be_value_inj; [by rewrite !length_digest|apply digest_bytes..|done].
  - intros Heq. unfold hash_to_numeric, hexdigest. by rewrite Heq.
Qed.

(** ** Folders, with or without their closing separator *)

Lemma endswith_create_folder (folder : string) :
  endswith (create_folder folder) "/" = true.
Proof.
  destruct (create_folder_closed folder) as [Hempty|Hends]; [|done].
  by destruct (create_folder_nonempty folder).
Qed.

Lemma create_folder_idempotent (folder : string) :
  create_folder (create_folder folder) = create_folder folder.
Proof.
  unfold create_folder at 1. by rewrite endswith_create_folder.
Qed.

Lemma move_folder_idempotent (location : string) :
  move_folder (move_folder location) = move_folder location.
Proof.
  destruct (move_folder_closed location) as [Hempty|Hends].
  - by rewrite Hempty.
  - unfold move_folder at 1. by rewrite Hends.
Qed.

(** X4: normalising a folder twice is normalising it once, so a caller may
    pass a folder as the routes close it: [create_flashcard] and
    [move_flashcard_set] run the same program on a folder and on the same
    folder already closed by its separator. *)
Theorem routes_accept_closed_folders
    (user_id flashcard_name flashcard_description flashcard_id : string) (cards : json)
    (folder move_location current_location : string) :
  create_folder (create_folder folder) = create_folder folder
  ∧ move_folder (move_folder current_location) = move_folder current_location
  ∧ create_flashcard user_id flashcard_name flashcard_description cards
      (create_folder folder)
    = create_flashcard user_id flashcard_name flashcard_description cards folder
  ∧ move_flashcard_set user_id flashcard_id (move_folder move_location)
      (move_folder current_location)
    = move_flashcard_set user_id flashcard_id move_location current_location.
Proof.
  split; [apply create_folder_idempotent|].
  split; [apply move_folder_idempotent|].
  unfold create_flashcard, move_flashcard_set. cbv zeta.
  by rewrite create_folder_idempotent, !move_folder_idempotent.
Qed.

(** ** More on reading after writing in the tree *)

Lemma navigate_empty_default (p : list string) :
  default (JMap ∅) (navigate p (JMap ∅)) = JMap ∅.
Proof. destruct p as [|key p]; [done|]. cbn. by rewrite lookup_empty. Qed.

(** Reading above a write: the written document sits in what was there. *)
Lemma navigate_save_prefix (p q : list string) (data doc : json) :
  navigate p (save_at (p ++ q) data doc)
  = Some (save_at q data (default (JMap ∅) (navigate p doc))).
Proof.
  revert doc. induction p as [|key p IH]; intros doc; [done|].
  cbn [app save_at]. cbv zeta. rewrite !navigate_children. cbn [children].
  rewrite lookup_insert_eq. cbn. rewrite IH.
  destruct (children doc !! key) as [child|]; cbn; [done|].
  by rewrite navigate_empty_default.
Qed.

(** A write below [p] is a write at [p] of the document found there, changed. *)
Lemma save_at_app (p q : list string) (data doc : json) :
  save_at (p ++ q) data doc
  = save_at p (save_at q data (default (JMap ∅) (navigate p doc))) doc.
Proof.
  revert doc. induction p as [|key p IH]; intros doc; [done|].
  cbn [app save_at]. cbv zeta. rewrite IH, navigate_children.
  destruct (children doc !! key) as [child|]; cbn; [done|].
  by rewrite navigate_empty_default.
Qed.

(** Writing what is there changes nothing. *)
Lemma save_at_same (p : list string) (data doc : json) :
  navigate p doc = Some data → save_at p data doc = doc.
Proof.
  revert doc. induction p as [|key p IH]; intros doc Hnav.
  { cbn in Hnav. by injection Hnav as ->. }
  destruct doc as [| | | |fields]; try discriminate Hnav.
  cbn in Hnav. cbn [save_at children]. cbv zeta.
  destruct (fields !! key) as [child|] eqn:Hchild; [|discriminate Hnav].
  cbn in Hnav. cbn. rewrite (IH child Hnav). by rewrite insert_id.
Qed.

(** The second of two writes at one address wins. *)
Lemma save_at_twice (p : list string) (data1 data2 doc : json) :
  save_at p data2 (save_at p data1 doc) = save_at p data2 doc.
Proof.
  revert doc. induction p as [|key p IH]; intros doc; [done|].
  cbn [save_at children]. cbv zeta. rewrite lookup_insert_eq. cbn.
  by rewrite IH, insert_insert_eq.
Qed.

(** A run whose writes all go below the path [root] leaves every address
    that is neither above nor below [root] as it was. *)
Lemma exec_frame {A} (root : list string) (p : db_prog A) (db : json) (read : string) :
  Forall (λ w, root `prefix_of` segments w.1) (writes p db) →
  ¬ root `prefix_of` segments read →
  ¬ segments read `prefix_of` root →
  db_get (fst (exec p db)) read = db_get db read.
Proof.
  intros Hwrites Hbelow Habove. revert db Hwrites.
  induction p as [r|path k IH|path data k IH]; intros db Hwrites; [done|..].
  - apply IH, Hwrites.
  - cbn [exec writes] in *. apply Forall_cons in Hwrites as [Hpath Hwrites].
    rewrite (IH _ Hwrites). cbn [fst] in Hpath.
    apply db_get_save_other.
    + intros Hprefix. apply Hbelow. by etrans.
    + intros Hprefix.
      destruct (prefix_weak_total _ _ _ Hprefix Hpath); done.
Qed.

Lemma flashcards_path_prefix (user_id rest : string) :
  flashcards_path user_id
    `prefix_of` segments ("/users/" +:+ user_id +:+ "/flashcards/" +:+ rest).
Proof. rewrite segments_flashcards. by apply prefix_app_r. Qed.

(** X5: [create_flashcard] changes nothing outside the flashcards of its
    user: a read at any address that is neither above nor below
    [/users/{user_id}/flashcards] returns after the call what it returned
    before. *)
Theorem create_flashcard_frame (db : json)
    (user_id flashcard_name flashcard_description : string) (cards : json)
    (folder : string) (read : string) :
  ¬ flashcards_path user_id `prefix_of` segments read →
  ¬ segments read `prefix_of` flashcards_path user_id →
  db_get (fst (exec (create_flashcard user_id flashcard_name flashcard_description
                       cards folder) db)) read
  = db_get db read.
Proof.
  intros Hbelow Habove. apply (exec_frame (flashcards_path user_id)); [|done..].
  destruct (create_flashcard_run db user_id flashcard_name flashcard_description
              cards folder) as [_ Hwrites].
  cbv zeta in Hwrites. rewrite Hwrites.
  destruct (db_get db _); [done|].
  apply Forall_cons. split; [|done]. apply flashcards_path_prefix.
Qed.

(** X5 at work: creating a set for user [v] leaves the set of user [u]. *)
Lemma create_flashcard_frame_witness :
  db_get (fst (exec (create_flashcard "v" "n" "d" sample_cards "a") two_folders_db))
    "/users/u/flashcards/a/1"
  = db_get two_folders_db "/users/u/flashcards/a/1".
Proof.
  apply (create_flashcard_frame two_folders_db "v" "n" "d" sample_cards "a");
    vm_compute; intros [k Hk]; discriminate Hk.
Defined.

(** X6: [move_flashcard_set] changes nothing outside the flashcards of its
    user, whether it moves the set, answers not found or raises. *)
Theorem move_flashcard_set_frame (db : json)
    (user_id flashcard_id move_location current_location : string) (read : string) :
  ¬ flashcards_path user_id `prefix_of` segments read →
  ¬ segments read `prefix_of` flashcards_path user_id →
  db_get (fst (exec (move_flashcard_set user_id flashcard_id move_location
                       current_location) db)) read
  = db_get db read.
Proof.
  intros Hbelow Habove. apply (exec_frame (flashcards_path user_id)); [|done..].
  pose proof (move_flashcard_set_stops db user_id flashcard_id move_location
                current_location) as Hstop.
  cbv zeta in Hstop.
  destruct (db_get db (move_source_address user_id current_location))
    as [[| | | |fields]|] eqn:Hsource.
  1-4, 6: destruct Hstop as [_ ->]; done.
  destruct (fields !! flashcard_id) as [flashcard|] eqn:Hfield.
  - destruct (move_flashcard_set_run db user_id flashcard_id move_location
                current_location fields flashcard Hsource Hfield) as (_ & Hwrites & _).
    cbv zeta in Hwrites. rewrite Hwrites.
    repeat (apply Forall_cons; split); [apply flashcards_path_prefix..|done].
  - destruct Hstop as [_ ->]. done.
Qed.

(** X6 at work: moving the set of user [u] leaves what user [v] has. *)
Lemma move_flashcard_set_frame_witness :
  db_get (fst (exec (move_flashcard_set "u" one_set_id "b" "a") one_set_db))
    "/users/v/flashcards"
  = db_get one_set_db "/users/v/flashcards".
Proof.
  apply (move_flashcard_set_frame one_set_db "u" one_set_id "b" "a");
    vm_compute; intros [k Hk]; discriminate Hk.
Defined.

(** ** More on moving a set *)

(** X7: a successful move leaves the other sets of the source folder where
    they are: for any other id of that folder whose address is neither above
    nor below the new address of the moved set, a read at its address
    returns after the move the document it returned before. *)
Theorem move_keeps_siblings (db : json)
    (user_id flashcard_id move_location current_location other_id : string)
    (fields : gmap string json) (flashcard : json) :
  is_key other_id = true →
  other_id ≠ flashcard_id →
  db_get db (move_source_address user_id current_location) = Some (JMap fields) →
  fields !! flashcard_id = Some flashcard →
  let sibling := move_old_address user_id current_location other_id in
  let new := move_new_address user_id move_location flashcard_id in
  ¬ segments new `prefix_of` segments sibling →
  ¬ segments sibling `prefix_of` segments new →
  db_get db sibling = fields !! other_id
  ∧ db_get (fst (exec (move_flashcard_set user_id flashcard_id move_location
                         current_location) db)) sibling
    = fields !! other_id.
Proof.
  intros Hkey Hother Hsource Hfield sibling new Hbelow Habove.
  pose proof (segments_move_old user_id current_location other_id Hkey) as Hsegs.
  fold sibling in Hsegs.
  destruct (move_flashcard_set_run db user_id flashcard_id move_location
              current_location fields flashcard Hsource Hfield) as (Hexec & _).
  cbv zeta in Hexec. fold new in Hexec. rewrite Hexec. cbn [fst].
  split.
  - apply (db_get_child db _ sibling other_id fields Hsegs Hsource).
  - rewrite db_get_save_other by done.
    rewrite (db_get_save_child db _ sibling other_id _ Hsegs).
    by apply lookup_delete_ne.
Qed.

(** A folder [a] with the sets [1] and [2]. *)
Lemma move_keeps_siblings_witness :
  db_get (fst (exec (move_flashcard_set "u" "1" "b" "a")
                 (db_save two_folders_db "/users/u/flashcards/a/2" (JStr "stays"))))
    (move_old_address "u" "a" "2")
  = Some (JStr "stays").
Proof.
  refine (eq_trans (proj2
    (move_keeps_siblings
       (db_save two_folders_db "/users/u/flashcards/a/2" (JStr "stays"))
       "u" "1" "b" "a" "2"
       (<["1" := JStr "moved"]> {["2" := JStr "stays"]}) (JStr "moved") _ _ _ _ _ _)) _).
  - by_evaluation.
  - discriminate.
  - by_evaluation.
  - by_evaluation.
  - vm_compute. intros [k Hk]. discriminate Hk.
  - vm_compute. intros [k Hk]. discriminate Hk.
  - by_evaluation.
Defined.

(** X8: a move whose target folder is the folder the set is in succeeds and
    leaves the whole database exactly as it was: the entry it removes from
    the folder document is put back by its second write. *)
Theorem move_within_folder_unchanged (db : json)
    (user_id flashcard_id move_location current_location : string)
    (fields : gmap string json) (flashcard : json) :
  is_key flashcard_id = true →
  db_get db (move_source_address user_id current_location) = Some (JMap fields) →
  fields !! flashcard_id = Some flashcard →
  move_folder move_location = move_folder current_location →
  exec (move_flashcard_set user_id flashcard_id move_location current_location) db
  = (db, move_success user_id (move_folder current_location) flashcard_id
           (move_folder current_location)).
Proof.
  intros Hkey Hsource Hfield Hsame.
  pose proof (segments_move_old user_id current_location flashcard_id Hkey) as Hsegs.
  destruct (move_flashcard_set_run db user_id flashcard_id move_location
              current_location fields flashcard Hsource Hfield) as (Hexec & _).
  cbv zeta in Hexec. rewrite Hexec, Hsame. f_equal.
  unfold move_new_address. rewrite Hsame.
  fold (move_old_address user_id current_location flashcard_id).
  unfold db_save, db_get in *. rewrite Hsegs.
  rewrite save_at_app, navigate_save_same, save_at_twice.
  change (save_at [flashcard_id] flashcard
            (default (JMap ∅) (Some (JMap (delete flashcard_id fields)))))
    with (JMap (<[flashcard_id := flashcard]> (delete flashcard_id fields))).
  rewrite insert_delete_eq, insert_id by done.
  by apply save_at_same.
Qed.

(** X8 at work: the set of [one_set_db] moved from folder [a] to folder [a]. *)
Lemma move_within_folder_unchanged_witness :
  fst (exec (move_flashcard_set "u" one_set_id "a/" "a") one_set_db) = one_set_db.
Proof.
  refine (f_equal fst
    (move_within_folder_unchanged one_set_db "u" one_set_id "a/" "a"
       {[one_set_id := flashcard_document one_set_id "n" "d" sample_cards]}
       (flashcard_document one_set_id "n" "d" sample_cards) _ _ _ _));
    by_evaluation.
Defined.

(** X9: a successful move cannot be repeated: when the target address is
    neither above nor below the source folder, the same request sent again
    answers not found and leaves the database as the first move left it. *)
Theorem move_twice_not_found (db : json)
    (user_id flashcard_id move_location current_location : string)
    (fields : gmap string json) (flashcard : json) :
  db_get db (move_source_address user_id current_location) = Some (JMap fields) →
  fields !! flashcard_id = Some flashcard →
  let request :=
    move_flashcard_set user_id flashcard_id move_location current_location in
  let source := move_source_address user_id current_location in
  let new := move_new_address user_id move_location flashcard_id in
  ¬ segments new `prefix_of` segments source →
  ¬ segments source `prefix_of` segments new →
  exec request (fst (exec request db))
  = (fst (exec request db),
     move_not_found user_id (move_folder current_location) flashcard_id).
Proof.
  intros Hsource Hfield request source new Hbelow Habove.
  destruct (move_flashcard_set_run db user_id flashcard_id move_location
              current_location fields flashcard Hsource Hfield) as (Hexec & _).
  cbv zeta in Hexec. fold request source new in Hexec. rewrite Hexec. cbn [fst].
  pose proof (move_flashcard_set_stops
                (db_save (db_save db source (JMap (delete flashcard_id fields)))
                   new flashcard)
                user_id flashcard_id move_location current_location) as Hstop.
  cbv zeta in Hstop. fold request source in Hstop.
  rewrite db_get_save_other, db_get_save_same in Hstop by done.
  rewrite lookup_delete_eq in Hstop. apply Hstop.
Qed.

(** X9 at work: the move of [one_set_db] from [a] to [b], sent twice. *)
Lemma move_twice_not_found_witness :
  snd (exec (move_flashcard_set "u" one_set_id "b" "a")
         (fst (exec (move_flashcard_set "u" one_set_id "b" "a") one_set_db)))
  = move_not_found "u" (move_folder "a") one_set_id.
Proof.
  refine (f_equal snd
    (move_twice_not_found one_set_db "u" one_set_id "b" "a"
       {[one_set_id := flashcard_document one_set_id "n" "d" sample_cards]}
       (flashcard_document one_set_id "n" "d" sample_cards) _ _ _ _)).
  - by_evaluation.
  - by_evaluation.
  - vm_compute. intros [k Hk]. discriminate Hk.
  - vm_compute. intros [k Hk]. discriminate Hk.
Defined.

(** X10: when the source address holds a document that is not a mapping (a
    string, a number, a boolean or a list), the membership test of
    [move_flashcard_set] raises [AttributeError]: the request fails with no
    response of the route and nothing is written. *)
Theorem move_from_non_mapping_raises (db : json)
    (user_id flashcard_id move_location current_location : string) (found : json) :
  db_get db (move_source_address user_id current_location) = Some found →
  (∀ fields, found ≠ JMap fields) →
  exec (move_flashcard_set user_id flashcard_id move_location current_location) db
  = (db, Unhandled "AttributeError")
  ∧ writes (move_flashcard_set user_id flashcard_id move_location current_location) db
    = [].
Proof.
  intros Hsource Hnot.
  pose proof (move_flashcard_set_stops db user_id flashcard_id move_location
                current_location) as Hstop.
  cbv zeta in Hstop. rewrite Hsource in Hstop.
  destruct found as [| | | |fields]; try exact Hstop.
  by destruct (Hnot fields).
Qed.

(** X10 at work: the current location names the cards of the set of
    [one_set_db], a list. *)
Lemma move_from_non_mapping_raises_witness :
  exec (move_flashcard_set "u" "1" "b" ("a/" +:+ one_set_id +:+ "/cards")) one_set_db
  = (one_set_db, Unhandled "AttributeError").
Proof.
  refine (proj1
    (move_from_non_mapping_raises one_set_db "u" "1" "b"
       ("a/" +:+ one_set_id +:+ "/cards") sample_cards _ _)).
  - by_evaluation.
  - intros fields. discriminate.
Defined.

(** ** Creating, then moving or listing *)

(** [create_flashcard] and [move_flashcard_set] name the same folder, also
    when it is the top level, which one writes ["/"] and the other [""]. *)
Lemma segments_create_move_folder (folder : string) :
  segments (create_folder folder) = segments (move_folder folder).
Proof.
  unfold create_folder, move_folder.
  destruct (endswith folder "/"); [done|].
  by destruct (String.eqb_spec folder "") as [->|Hne].
Qed.

Lemma segments_move_source (user_id current_location : string) :
  segments (move_source_address user_id current_location)
  = flashcards_path user_id ++ segments (move_folder current_location).
Proof. unfold move_source_address. apply segments_flashcards. Qed.

Lemma segments_create_address (user_id folder flashcard_name : string) :
  segments (create_address user_id folder flashcard_name)
  = segments (move_source_address user_id folder)
      ++ [create_id user_id folder flashcard_name].
Proof.
  unfold create_address.
  rewrite segments_set_address
    by (apply create_folder_closed || apply hash_to_numeric_is_key).
  by rewrite segments_move_source, segments_create_move_folder, app_assoc.
Qed.

(** The database after a call of [create_flashcard] that found its address
    free. *)
Lemma create_flashcard_writes (db : json)
    (user_id flashcard_name flashcard_description : string) (cards : json)
    (folder : string) :
  db_get db (create_address user_id folder flashcard_name) = None →
  fst (exec (create_flashcard user_id flashcard_name flashcard_description cards
               folder) db)
  = db_save db (create_address user_id folder flashcard_name)
      (flashcard_document (create_id user_id folder flashcard_name) flashcard_name
         flashcard_description cards).
Proof.
  intros Habsent.
  destruct (create_flashcard_run db user_id flashcard_name flashcard_description
              cards folder) as [Hexec _].
  cbv zeta in Hexec. by rewrite Hexec, Habsent.
Qed.

(** X11: a set made by [create_flashcard] in a folder is found by
    [move_flashcard_set] under the id that the creation computed, with the
    same folder as current location: the move succeeds and the document that
    was created is then read at the new address. *)
Theorem create_then_move (db : json)
    (user_id flashcard_name flashcard_description : string) (cards : json)
    (folder move_location : string) :
  db_get db (create_address user_id folder flashcard_name) = None →
  let flashcard_id := create_id user_id folder flashcard_name in
  let document :=
    flashcard_document flashcard_id flashcard_name flashcard_description cards in
  let created :=
    fst (exec (create_flashcard user_id flashcard_name flashcard_description cards
                 folder) db) in
  let request := move_flashcard_set user_id flashcard_id move_location folder in
  db_get created (create_address user_id folder flashcard_name) = Some document
  ∧ snd (exec request created)
    = move_success user_id (move_folder folder) flashcard_id (move_folder move_location)
  ∧ db_get (fst (exec request created))
      (move_new_address user_id move_location flashcard_id)
    = Some document.
Proof.
  intros Habsent flashcard_id document created request.
  assert (created
          = db_save db (create_address user_id folder flashcard_name) document)
    as Hcreated by (by apply create_flashcard_writes).
  split; [rewrite Hcreated; apply db_get_save_same|].
  assert (∃ fields,
            db_get created (move_source_address user_id folder) = Some (JMap fields)
            ∧ fields !! flashcard_id = Some document) as (fields & Hsource & Hfield).
  { rewrite Hcreated. unfold db_get, db_save.
    rewrite segments_create_address, navigate_save_prefix.
    eexists. split; [reflexivity|]. apply lookup_insert_eq. }
  destruct (move_flashcard_set_run created user_id flashcard_id move_location
              folder fields document Hsource Hfield) as (Hexec & _).
  cbv zeta in Hexec. fold request in Hexec. rewrite Hexec. cbn [fst snd].
  split; [done|]. apply db_get_save_same.
Qed.

(** X11 at work: a set created in the top-level folder [""] and moved to
    folder [b]. *)
Lemma create_then_move_witness :
  db_get
    (fst (exec (move_flashcard_set "u" (create_id "u" "" "n") "b" "")
            (fst (exec (create_flashcard "u" "n" "d" sample_cards "") empty_db))))
    (move_new_address "u" "b" (create_id "u" "" "n"))
  = Some (flashcard_document (create_id "u" "" "n") "n" "d" sample_cards).
Proof.
  refine (proj2 (proj2
    (create_then_move empty_db "u" "n" "d" sample_cards "" "b" _))).
  by_evaluation.
Defined.

(** X12: [create_flashcard] makes one write at most, so a call that is
    interrupted leaves either the database it found or the database of the
    complete call, never a state in between. *)
Theorem create_flashcard_one_write (db : json)
    (user_id flashcard_name flashcard_description : string) (cards : json)
    (folder : string) (budget : nat) :
  let request :=
    create_flashcard user_id flashcard_name flashcard_description cards folder in
  length (writes request db) ≤ 1
  ∧ (exec_interrupted budget request db = db
     ∨ exec_interrupted budget request db = fst (exec request db)).
Proof.
  intros request. subst request. unfold create_flashcard. cbv zeta.
  cbn [exec writes exec_interrupted].
  destruct (db_get db _); cbn [exec writes exec_interrupted length fst].
  - split; [lia|by left].
  - split; [lia|]. destruct budget; [by left|by right].
Qed.

Lemma segments_flashcards_root (user_id : string) :
  segments ("/users/" +:+ user_id +:+ "/flashcards") = flashcards_path user_id.
Proof.
  change ("/users/" +:+ user_id +:+ "/flashcards")
    with ("" +:+ String "/" ("users" +:+ String "/"
            (user_id +:+ String "/" "flashcards"))).
  rewrite !segments_app_slash.
  change (segments "") with (@nil string).
  change (segments "users") with ["users"].
  change (segments "flashcards") with ["flashcards"].
  done.
Qed.

(** X13: after a call of [create_flashcard] that wrote the set, the user has
    a hierarchy: [get_today_cards] no longer answers that the user has no
    flashcards, it answers with the card list that [FlashcardCollection]
    computes from the stored hierarchy, in which the set lies below the
    segments of its folder, at its id. *)
Theorem create_then_today_cards (today_card_list : json → json) (db : json)
    (user_id flashcard_name flashcard_description : string) (cards : json)
    (folder : string) :
  db_get db (create_address user_id folder flashcard_name) = None →
  let flashcard_id := create_id user_id folder flashcard_name in
  let created :=
    fst (exec (create_flashcard user_id flashcard_name flashcard_description cards
                 folder) db) in
  ∃ flashcards,
    db_get created ("/users/" +:+ user_id +:+ "/flashcards") = Some flashcards
    ∧ navigate (segments (create_folder folder) ++ [flashcard_id]) flashcards
      = Some (flashcard_document flashcard_id flashcard_name flashcard_description
                cards)
    ∧ exec (get_today_cards today_card_list user_id) created
      = (created, Reply (Some (today_card_list flashcards)) 200).
Proof.
  intros Habsent flashcard_id created.
  assert (db_get created (create_address user_id folder flashcard_name)
          = Some (flashcard_document flashcard_id flashcard_name
                    flashcard_description cards)) as Hstored.
  { unfold created. rewrite create_flashcard_writes by done.
    apply db_get_save_same. }
  unfold db_get in Hstored. unfold create_address in Hstored.
  rewrite segments_set_address in Hstored
    by (apply create_folder_closed || apply hash_to_numeric_is_key).
  rewrite navigate_app in Hstored.
  destruct (navigate (flashcards_path user_id) created) as [flashcards|] eqn:Hroot;
    [|discriminate Hstored].
  exists flashcards.
  assert (db_get created ("/users/" +:+ user_id +:+ "/flashcards") = Some flashcards)
    as Hget by (unfold db_get; by rewrite segments_flashcards_root).
  split; [done|]. split; [exact Hstored|].
  unfold get_today_cards. cbn [exec]. by rewrite Hget.
Qed.

(** X13 at work: the set of [one_set_db] is in the hierarchy passed on. *)
Lemma create_then_today_cards_witness :
  ∃ flashcards,
    exec (get_today_cards (λ flashcards, flashcards) "u") one_set_db
    = (one_set_db, Reply (Some flashcards) 200).
Proof.
  destruct (create_then_today_cards (λ flashcards, flashcards) empty_db "u" "n" "d"
              sample_cards "a") as (flashcards & _ & _ & Hexec).
  - by_evaluation.
  - by exists flashcards.
Defined.

(** X14: a move can be undone: after a successful move between two addresses
    that are not above one another, the move back (target and current
    location exchanged) succeeds, the document is read again at its first
    address and the address it was moved to is absent again. *)
Theorem move_there_and_back (db : json)
    (user_id flashcard_id move_location current_location : string)
    (fields : gmap string json) (flashcard : json) :
  is_key flashcard_id = true →
  db_get db (move_source_address user_id current_location) = Some (JMap fields) →
  fields !! flashcard_id = Some flashcard →
  let old := move_old_address user_id current_location flashcard_id in
  let new := move_new_address user_id move_location flashcard_id in
  ¬ segments old `prefix_of` segments new →
  ¬ segments new `prefix_of` segments old →
  let there :=
    fst (exec (move_flashcard_set user_id flashcard_id move_location
                 current_location) db) in
  let back := move_flashcard_set user_id flashcard_id current_location move_location in
  snd (exec back there)
    = move_success user_id (move_folder move_location) flashcard_id
        (move_folder current_location)
  ∧ db_get (fst (exec back there)) old = Some flashcard
  ∧ db_get (fst (exec back there)) new = None.
Proof.
  intros Hkey Hsource Hfield old new Hold Hnew there back.
  pose proof (segments_move_old user_id move_location flashcard_id Hkey) as Hsegs.
  change (move_old_address user_id move_location flashcard_id) with new in Hsegs.
  destruct (move_flashcard_set_run db user_id flashcard_id move_location
              current_location fields flashcard Hsource Hfield) as (Hexec & _).
  cbv zeta in Hexec. fold new in Hexec.
  assert (∃ fields',
            db_get there (move_source_address user_id move_location)
            = Some (JMap fields')
            ∧ fields' !! flashcard_id = Some flashcard) as (fields' & Hsource' & Hfield').
  { unfold there. rewrite Hexec. cbn [fst]. unfold db_get, db_save at 1.
    rewrite Hsegs, navigate_save_prefix.
    eexists. split; [reflexivity|]. apply lookup_insert_eq. }
  destruct (move_flashcard_set_run there user_id flashcard_id current_location
              move_location fields' flashcard Hsource' Hfield') as (Hback & _).
  cbv zeta in Hback. fold back in Hback.
  change (move_new_address user_id current_location flashcard_id) with old in Hback.
  rewrite Hback. cbn [fst snd].
  split; [done|]. split; [apply db_get_save_same|].
  rewrite db_get_save_other by done.
  rewrite (db_get_save_child there _ new flashcard_id _ Hsegs).
  apply lookup_delete_eq.
Qed.

(** X14 at work: the set of [one_set_db] moved to folder [b] and back. *)
Lemma move_there_and_back_witness :
  db_get
    (fst (exec (move_flashcard_set "u" one_set_id "a" "b")
            (fst (exec (move_flashcard_set "u" one_set_id "b" "a") one_set_db))))
    (move_old_address "u" "a" one_set_id)
  = Some (flashcard_document one_set_id "n" "d" sample_cards).
Proof.
  refine (proj1 (proj2
    (move_there_and_back one_set_db "u" one_set_id "b" "a"
       {[one_set_id := flashcard_document one_set_id "n" "d" sample_cards]}
       (flashcard_document one_set_id "n" "d" sample_cards) _ _ _ _ _))).
  - by_evaluation.
  - by_evaluation.
  - by_evaluation.
  - vm_compute. intros [k Hk]. discriminate Hk.
  - vm_compute. intros [k Hk]. discriminate Hk.
Defined.
